(** * OPD summary dashboard ([streamlit_app.py]): a shallow embedding

    The program is one Streamlit script that is run top to bottom on every
    user interaction.  It appends OPD visit rows to a spreadsheet, reads them
    back into a pandas frame, shows a few aggregates, and sends a templated
    prompt to a chat-completion service.

    The development follows the script:
    - [Py]      the Python values the script handles ([str], [int],
                [datetime.date], the missing value), their [==], [str.strip],
                [str(date)] and [repr];
    - [Pandas]  the few frame operations the script calls;
    - [Sheet]   the worksheet behind [get_sheet()];
    - [App]     the script itself, as a program in a small state-and-exception
                monad that records every network call and every widget it
                draws. *)

From Stdlib Require Import ZArith Ascii String List.
From Stdlib Require Import DecimalString DecimalPos DecimalZ.
From stdpp Require Import base decidable countable gmap strings list.

Local Open Scope Z_scope.

(** ** Python values *)
Module Py.

(** A Python [str] is modelled by a Rocq [string]; each character stands for
    the code point of the same number (0 to 255). *)

(** [datetime.date], as returned by [st.date_input] and [date.today()]. *)
Record date := mkdate { year : Z; month : Z; day : Z }.

(** The scalars that occur in the script: sheet cells are [str] or [int];
    the date widgets return [datetime.date]; a key absent from a record
    becomes the missing value (NaN) when pandas builds a frame. *)
Inductive pyval :=
| PStr (s : string)
| PInt (n : Z)
| PDate (d : date)
| PNaN.

Global Instance date_eq_dec : EqDecision date.
Proof. solve_decision. Defined.

Global Instance pyval_eq_dec : EqDecision pyval.
Proof. solve_decision. Defined.

Global Instance date_countable : Countable date :=
  inj_countable'
    (fun d => (year d, month d, day d))
    (fun t => match t with (y, m, d) => mkdate y m d end)
    (fun d => match d with mkdate _ _ _ => eq_refl end).

Definition pyval_code (v : pyval) : string + (Z + (date + unit)) :=
  match v with
  | PStr s => inl s
  | PInt n => inr (inl n)
  | PDate d => inr (inr (inl d))
  | PNaN => inr (inr (inr tt))
  end.

Definition pyval_decode (c : string + (Z + (date + unit))) : pyval :=
  match c with
  | inl s => PStr s
  | inr (inl n) => PInt n
  | inr (inr (inl d)) => PDate d
  | inr (inr (inr _)) => PNaN
  end.

Global Instance pyval_countable : Countable pyval :=
  inj_countable' pyval_code pyval_decode
    (fun v => match v with
              | PStr _ | PInt _ | PDate _ | PNaN => eq_refl
              end).

(** Python's [==] on these scalars.  Values of different types are never
    equal: neither [str.__eq__] nor [date.__eq__] accepts the other type, so
    the comparison falls back to identity.  NaN is equal to nothing. *)
Definition date_eqb (a b : date) : bool :=
  (year a =? year b) && (month a =? month b) && (day a =? day b).

Definition py_eq (a b : pyval) : bool :=
  match a, b with
  | PStr s, PStr t => String.eqb s t
  | PInt m, PInt n => m =? n
  | PDate d, PDate e => date_eqb d e
  | _, _ => false
  end.

(** *** [str(d)] for a [datetime.date]: ISO format, [%04d-%02d-%02d]. *)
Definition digit (n : Z) : ascii := ascii_of_N (Z.to_N (48 + n mod 10)).

Definition digits2 (n : Z) : string :=
  String (digit (n / 10)) (String (digit n) "").

Definition digits4 (n : Z) : string :=
  String (digit (n / 1000)) (String (digit (n / 100)) (digits2 n)).

Definition str_date (d : date) : string :=
  digits4 (year d) +:+ "-" +:+ digits2 (month d) +:+ "-" +:+ digits2 (day d).

(** The dates [datetime.date] can hold, as far as [str] is concerned. *)
Definition valid_date (d : date) : Prop :=
  1 <= year d <= 9999 /\ 1 <= month d <= 12 /\ 1 <= day d <= 31.

(** *** [str.isspace] and [str.strip] *)

(** The code points below 256 that Python's [str] treats as whitespace:
    TAB, LF, VT, FF, CR, FS, GS, RS, US, SPACE, NEL and NBSP. *)
Definition isspace (c : ascii) : bool :=
  let n := Z.of_N (N_of_ascii c) in
  ((9 <=? n) && (n <=? 13)) || ((28 <=? n) && (n <=? 32))
  || (n =? 133) || (n =? 160).

Fixpoint lstrip (s : string) : string :=
  match s with
  | EmptyString => EmptyString
  | String c s' => if isspace c then lstrip s' else s
  end.

Fixpoint rstrip (s : string) : string :=
  match s with
  | EmptyString => EmptyString
  | String c s' =>
      match rstrip s' with
      | EmptyString => if isspace c then EmptyString else String c EmptyString
      | r => String c r
      end
  end.

(** [s.strip()]: whitespace removed at both ends. *)
Definition strip (s : string) : string := rstrip (lstrip s).

(** Every character of [s] is whitespace (true for the empty string). *)
Fixpoint all_space (s : string) : bool :=
  match s with
  | EmptyString => true
  | String c s' => isspace c && all_space s'
  end.

(** *** [repr] *)

Definition hex_digit (n : Z) : ascii :=
  if n <? 10 then ascii_of_N (Z.to_N (48 + n)) else ascii_of_N (Z.to_N (87 + n)).

(** Code points that [repr] leaves as they are. *)
Definition isprintable (c : ascii) : bool :=
  let n := Z.of_N (N_of_ascii c) in
  ((32 <=? n) && (n <? 127)) || ((161 <=? n) && negb (n =? 173)).

Fixpoint contains_char (q : ascii) (s : string) : bool :=
  match s with
  | EmptyString => false
  | String c s' => Ascii.eqb c q || contains_char q s'
  end.

Definition squote : ascii := "'"%char.
Definition dquote : ascii := ascii_of_N 34.
Definition backslash : ascii := "\"%char.

(** The quote [repr] wraps a string in: double quotes only when the string
    holds a single quote and no double quote. *)
Definition repr_quote (s : string) : ascii :=
  if contains_char squote s && negb (contains_char dquote s)
  then dquote else squote.

Definition repr_char (q c : ascii) : string :=
  let n := Z.of_N (N_of_ascii c) in
  if Ascii.eqb c q || Ascii.eqb c backslash then String backslash (String c "")
  else if n =? 9 then String backslash "t"
  else if n =? 10 then String backslash "n"
  else if n =? 13 then String backslash "r"
  else if isprintable c then String c ""
  else String backslash
         (String "x"%char (String (hex_digit (n / 16)) (String (hex_digit (n mod 16)) ""))).

Fixpoint repr_body (q : ascii) (s : string) : string :=
  match s with
  | EmptyString => EmptyString
  | String c s' => repr_char q c +:+ repr_body q s'
  end.

Definition repr_str (s : string) : string :=
  let q := repr_quote s in
  String q (repr_body q s +:+ String q "").

Definition repr_int (n : Z) : string := NilZero.string_of_int (Z.to_int n).

Definition repr_date (d : date) : string :=
  "datetime.date(" +:+ repr_int (year d) +:+ ", " +:+ repr_int (month d)
  +:+ ", " +:+ repr_int (day d) +:+ ")".

Definition repr (v : pyval) : string :=
  match v with
  | PStr s => repr_str s
  | PInt n => repr_int n
  | PDate d => repr_date d
  | PNaN => "nan"
  end.

(** A [dict] with string keys, in insertion order. *)
Definition dict := list (string * pyval).

Fixpoint join (sep : string) (l : list string) : string :=
  match l with
  | [] => ""
  | [x] => x
  | x :: l' => x +:+ sep +:+ join sep l'
  end.

Definition repr_item (kv : string * pyval) : string :=
  repr_str (fst kv) +:+ ": " +:+ repr (snd kv).

Definition repr_dict (d : dict) : string :=
  "{" +:+ join ", " (map repr_item d) +:+ "}".

(** [repr] of a list of dicts, which is also its [str] and what an f-string
    inserts for it. *)
Definition repr_records (l : list dict) : string :=
  "[" +:+ join ", " (map repr_dict l) +:+ "]".

(** *** Reading a [repr] back *)

Definition ord (c : ascii) : Z := Z.of_N (N_of_ascii c).

Definition unhex (c : ascii) : Z :=
  if ord c <=? 57 then ord c - 48 else ord c - 87.

(** The text between the quotes of a string literal, up to the closing
    quote [q], with the escapes undone. *)
Fixpoint unrepr_body (q : ascii) (s : string) : string :=
  match s with
  | EmptyString => EmptyString
  | String c rest =>
      if Ascii.eqb c q then EmptyString
      else if Ascii.eqb c backslash then
        match rest with
        | EmptyString => EmptyString
        | String e rest' =>
            if Ascii.eqb e "t" then String (ascii_of_N 9) (unrepr_body q rest')
            else if Ascii.eqb e "n" then String (ascii_of_N 10) (unrepr_body q rest')
            else if Ascii.eqb e "r" then String (ascii_of_N 13) (unrepr_body q rest')
            else if Ascii.eqb e "x" then
              match rest' with
              | String h (String l rest'') =>
                  String (ascii_of_N (Z.to_N (16 * unhex h + unhex l)))
                         (unrepr_body q rest'')
              | _ => EmptyString
              end
            else String e (unrepr_body q rest')
        end
      else String c (unrepr_body q rest)
  end.

(** The string a string literal stands for. *)
Definition unrepr_str (t : string) : string :=
  match t with
  | EmptyString => EmptyString
  | String q body => unrepr_body q body
  end.

(** The number a decimal literal stands for. *)
Definition unrepr_int (t : string) : option Z :=
  option_map Z.of_int (NilZero.int_of_string t).

(** Strings that [repr] shows as they are, between single quotes: printable
    characters other than the single quote and the backslash. *)
Definition plain_char (c : ascii) : bool :=
  isprintable c && negb (Ascii.eqb c squote) && negb (Ascii.eqb c backslash).

Fixpoint plain (s : string) : bool :=
  match s with
  | EmptyString => true
  | String c s' => plain_char c && plain s'
  end.

(** A field whose key is plain and whose value is a plain string or a
    number, and the text Python writes for it inside a dict. *)
Definition plain_field (kv : string * pyval) : bool :=
  plain (fst kv) &&
  match snd kv with
  | PStr s => plain s
  | PInt _ => true
  | _ => false
  end.

Definition field_text (kv : string * pyval) : string :=
  match snd kv with
  | PStr s => "'" +:+ fst kv +:+ "': '" +:+ s +:+ "'"
  | PInt n => "'" +:+ fst kv +:+ "': " +:+ NilZero.string_of_int (Z.to_int n)
  | _ => ""
  end.

(** *** Exceptions

    The exceptions the script can meet in its own statements: an unbound
    global, a missing column or label, an index out of range. *)
Inductive exn :=
| NameError (name : string)
| KeyError (key : pyval)
| IndexError.

Inductive result (A : Type) :=
| Ok (a : A)
| Raise (e : exn).
Global Arguments Ok {A} a.
Global Arguments Raise {A} e.

Definition dict_get (k : string) (d : dict) : option pyval :=
  snd <$> find (fun kv => String.eqb (fst kv) k) d.

(** The value a row has in the [Date] column (NaN when it has none). *)
Definition date_cell (r : dict) : pyval := default PNaN (dict_get "Date" r).

(** The exception is a [KeyError]. *)
Definition key_error (e : exn) : Prop :=
  match e with KeyError _ => True | _ => False end.

Definition keys (d : dict) : list string := map fst d.

End Py.

Import Py.

(** ** The pandas operations used by the script *)
Module Pandas.

(** A frame: its column labels and its rows, each row a dict over exactly
    these labels. *)
Record DataFrame := mkframe { columns : list string; rows : list dict }.

(** Column labels of [pd.DataFrame(records)]: the keys of the records in
    order of first appearance. *)
Definition add_label (acc : list string) (k : string) : list string :=
  if bool_decide (k ∈ acc) then acc else acc ++ [k].

Definition labels (records : list dict) : list string :=
  fold_left add_label (concat (map keys records)) [].

(** A record laid out over the labels; an absent key gives NaN. *)
Definition align (cols : list string) (r : dict) : dict :=
  map (fun c => (c, default PNaN (dict_get c r))) cols.

(** [pd.DataFrame(records)] for a list of dicts.  (pandas turns a column of
    numbers with a missing value into floating point; the records of the
    sheet all have the header's keys, so no value is missing there.) *)
Definition from_records (records : list dict) : DataFrame :=
  let cols := labels records in
  mkframe cols (map (align cols) records).

(** [df.to_dict(orient="records")] *)
Definition to_dict (df : DataFrame) : list dict := rows df.

(** [df.empty]: some axis has length zero. *)
Definition empty (df : DataFrame) : bool :=
  match columns df, rows df with
  | [], _ | _, [] => true
  | _, _ => false
  end.

(** [len(df)] *)
Definition len (df : DataFrame) : Z := Z.of_nat (length (rows df)).

(** [df[col]]: the column as a list of values; [KeyError] when the frame has
    no such label. *)
Definition getitem (df : DataFrame) (col : string) : result (list pyval) :=
  if bool_decide (col ∈ columns df)
  then Ok (map (fun r => default PNaN (dict_get col r)) (rows df))
  else Raise (KeyError (PStr col)).

(** [series == scalar]: element-wise Python equality. *)
Definition eq_scalar (col : list pyval) (x : pyval) : list bool :=
  map (fun v => py_eq v x) col.

(** [df[mask]]: the rows whose mask entry is true; the labels stay. *)
Fixpoint select {A} (l : list A) (mask : list bool) : list A :=
  match l, mask with
  | x :: l', b :: mask' => if b then x :: select l' mask' else select l' mask'
  | _, _ => []
  end.

Definition getmask (df : DataFrame) (mask : list bool) : DataFrame :=
  mkframe (columns df) (select (rows df) mask).

Definition notna (v : pyval) : bool :=
  match v with PNaN => false | _ => true end.

(** [series.value_counts()]: how often each value occurs, NaN left out.
    The order of the entries plays no part in the script ([.get] looks a label
    up, [st.bar_chart] draws bars by label), so the result is a finite map. *)
Definition count_in (v : pyval) (m : gmap pyval nat) : gmap pyval nat :=
  if notna v then <[v := S (default 0%nat (m !! v))]> m else m.

Definition value_counts (col : list pyval) : gmap pyval nat :=
  foldr count_in ∅ col.

(** [counts.get(label, dflt)] *)
Definition get (m : gmap pyval nat) (label : pyval) (dflt : nat) : nat :=
  default dflt (m !! label).

(** Number of entries of [col] equal to [v]. *)
Definition occurrences (v : pyval) (col : list pyval) : nat :=
  length (filter (fun x => x = v) col).

(** Distinct values in order of first appearance. *)
Fixpoint distinct (col : list pyval) : list pyval :=
  match col with
  | [] => []
  | v :: col' => v :: filter (fun x => x ≠ v) (distinct col')
  end.

Definition max_count (col : list pyval) : nat :=
  foldr (fun v m => Nat.max (occurrences v col) m) 0%nat col.

(** The order pandas sorts the modes in: numbers by value, strings by code
    points, and a number before a string. *)
Definition py_leb (a b : pyval) : bool :=
  match a, b with
  | PStr s, PStr t => String.leb s t
  | PInt m, PInt n => m <=? n
  | PStr _, PInt _ => false
  | _, _ => true
  end.

Fixpoint insert_sorted (v : pyval) (l : list pyval) : list pyval :=
  match l with
  | [] => [v]
  | x :: l' => if py_leb v x then v :: l else x :: insert_sorted v l'
  end.

(** pandas sorts the modes; with strings and numbers mixed, the numbers
    come first. *)
Definition sort_modes (l : list pyval) : list pyval := foldr insert_sorted [] l.

(** [series.mode()]: the most frequent values, NaN left out. *)
Definition mode (col : list pyval) : list pyval :=
  let vals := List.filter notna col in
  let top := max_count vals in
  sort_modes (List.filter (fun v => Nat.eqb (occurrences v vals) top) (distinct vals)).

(** [series[0]] on the result of [mode()], whose index is 0, 1, ...:
    [KeyError] when there is no mode. *)
Definition first (s : list pyval) : result pyval :=
  match s with
  | v :: _ => Ok v
  | [] => Raise (KeyError (PInt 0))
  end.

End Pandas.

(** ** The worksheet *)
Module Sheet.

(** Modelled from the spec: the record store behind [get_sheet()].  The
    gspread client and the remote spreadsheet are not part of the repository;
    the store is a header row followed by data rows, [append_row] writes one
    row after the last one, and [get_all_records] returns every data row as a
    mapping from the header's column names to the row's values, oldest
    first, and nothing for a sheet without data rows. *)
Record worksheet := mksheet { header : list string; data : list (list pyval) }.

(** Modelled from the spec: the header row of the store. *)
Definition schema : list string :=
  ["Date"; "Name"; "Age"; "Gender"; "Prakriti"; "Complaint"; "Diagnosis"; "FollowUp"].

(** Modelled from the spec: [sheet.append_row(values)]. *)
Definition append_row (values : list pyval) (ws : worksheet) : worksheet :=
  mksheet (header ws) (data ws ++ [values]).

(** Modelled from the spec: one data row as a mapping from the header's
    column names to the row's values; a cell the row does not reach reads as
    the empty string. *)
Fixpoint record_of (hdr : list string) (row : list pyval) : dict :=
  match hdr with
  | [] => []
  | h :: hdr' => (h, hd (PStr "") row) :: record_of hdr' (tl row)
  end.

(** Modelled from the spec: [sheet.get_all_records()]. *)
Definition get_all_records (ws : worksheet) : list dict :=
  map (record_of (header ws)) (data ws).

End Sheet.

(** ** The script *)
Module App.

Import Pandas.

(** *** Requests to the chat-completion service *)
Record message := mkmsg { role : string; content : string }.

(** The temperature is the decimal literal of the source, as a fraction. *)
Record request := mkreq {
  model : string;
  messages : list message;
  temperature : Z * Z  (* numerator, denominator *)
}.

(** *** What a run does to the outside

    A call to the worksheet, a request to the inference service, or a widget
    drawn.  Drawing is recorded, not executed: an error raised inside a
    widget (say [st.dataframe] given a cell it cannot convert) is outside
    this model, whose exceptions are those of the script's own lookups. *)
Inductive event :=
| SheetAppend (values : list pyval)          (* [sheet.append_row] *)
| SheetRead                                  (* [sheet.get_all_records] *)
| ChatCreate (req : request)                 (* [client.chat.completions.create] *)
| StInfo (text : string)                     (* [st.info] *)
| StSuccess (text : string)                  (* [st.success] *)
| StWarning (text : string)                  (* [st.warning] *)
| StMetric (label : string) (value : pyval)  (* [col.metric] *)
| StBarChart (counts : gmap pyval nat)       (* [st.bar_chart] *)
| StDataFrame (df : DataFrame)               (* [st.dataframe] *)
| StTextArea (label value : string).         (* [st.text_area] with a value *)

(** *** State of a run

    The worksheet, the one session field the script reads, the script global
    [opd_json] (unbound until assigned: every run starts from a fresh module
    namespace), and the events so far. *)
Record state := mkstate {
  sheet : Sheet.worksheet;
  current_view : string;
  opd_json : option (list dict);
  trace : list event
}.

Definition start (ws : Sheet.worksheet) (view : string) : state :=
  mkstate ws view None [].

(** *** What the widgets return in a run *)
Record widgets := mkwidgets {
  btn_overview : bool;          (* sidebar: OPD Overview *)
  btn_add_entry : bool;         (* sidebar: Add OPD Entry *)
  opd_date : date;
  patient_name : string;
  age : Z;
  gender : string;
  prakriti : string;
  complaint : string;
  diagnosis : string;
  follow_up : string;
  submitted : bool;             (* Save Entry *)
  cancel : bool;                (* Cancel *)
  selected_date : option date;  (* the date filter, [None] when not set *)
  user_prompt : string;
  btn_generate : bool           (* Generate Response *)
}.

(** *** The monad: state passing, with exceptions that stop the run *)
Definition M (A : Type) : Type := state -> result A * state.

Definition ret {A} (a : A) : M A := fun st => (Ok a, st).

Definition bind {A B} (c : M A) (k : A -> M B) : M B :=
  fun st =>
    match c st with
    | (Ok a, st') => k a st'
    | (Raise e, st') => (Raise e, st')
    end.

Declare Scope app_scope.
Delimit Scope app_scope with app.
Notation "x <- c ;; k" := (bind c (fun x => k))
  (at level 100, c at next level, k at level 200, right associativity,
   only parsing) : app_scope.
Notation "c ;;; k" := (bind c (fun _ => k))
  (at level 100, k at level 200, right associativity, only parsing) : app_scope.
Local Open Scope app_scope.

Definition lift {A} (r : result A) : M A := fun st => (r, st).

Definition emit (e : event) : M unit :=
  fun st => (Ok tt, mkstate (sheet st) (current_view st) (opd_json st) (trace st ++ [e])).

Definition when (b : bool) (c : M unit) : M unit := if b then c else ret tt.

Definition get_view : M string := fun st => (Ok (current_view st), st).

Definition set_view (v : string) : M unit :=
  fun st => (Ok tt, mkstate (sheet st) v (opd_json st) (trace st)).

(** [opd_json = ...] *)
Definition store_opd_json (j : list dict) : M unit :=
  fun st => (Ok tt, mkstate (sheet st) (current_view st) (Some j) (trace st)).

(** Reading the global [opd_json]. *)
Definition load_opd_json : M (list dict) :=
  fun st =>
    match opd_json st with
    | Some j => (Ok j, st)
    | None => (Raise (NameError "opd_json"), st)
    end.

(** [get_sheet().append_row(values)] *)
Definition append_row (values : list pyval) : M unit :=
  fun st =>
    (Ok tt, mkstate (Sheet.append_row values (sheet st)) (current_view st)
                    (opd_json st) (trace st ++ [SheetAppend values])).

(** [get_sheet().get_all_records()] *)
Definition get_all_records : M (list dict) :=
  fun st =>
    (Ok (Sheet.get_all_records (sheet st)),
     mkstate (sheet st) (current_view st) (opd_json st) (trace st ++ [SheetRead])).

(** *** Sidebar (lines 40-44) *)
Definition sidebar (w : widgets) : M unit :=
  when (btn_overview w) (set_view "overview") ;;;
  when (btn_add_entry w) (set_view "entry").

(** *** Add OPD entry (lines 49-86) *)

(** The list handed to [append_row]. *)
Definition entry_row (w : widgets) : list pyval :=
  [ PStr (str_date (opd_date w));
    PStr (patient_name w);
    PInt (age w);
    PStr (gender w);
    PStr (prakriti w);
    PStr (complaint w);
    PStr (diagnosis w);
    PStr (follow_up w) ].

Definition add_entry (w : widgets) : M unit :=
  when (submitted w)
    (append_row (entry_row w) ;;;
     emit (StSuccess "OPD entry added successfully") ;;;
     set_view "overview") ;;;
  when (cancel w) (set_view "overview").

(** *** OPD overview (lines 90-130) *)

(** Lines 106-107: [if selected_date: df = df[df["Date"] == selected_date]].
    [None] is false and every [datetime.date] is true. *)
Definition filter_by_date (df : DataFrame) (sel : option date) : result DataFrame :=
  match sel with
  | Some d =>
      match getitem df "Date" with
      | Ok col => Ok (getmask df (eq_scalar col (PDate d)))
      | Raise e => Raise e
      end
  | None => Ok df
  end.

(** Line 113: [df["FollowUp"].value_counts().get("Yes", 0)] *)
Definition follow_ups (df : DataFrame) : result Z :=
  match getitem df "FollowUp" with
  | Ok col => Ok (Z.of_nat (get (value_counts col) (PStr "Yes") 0))
  | Raise e => Raise e
  end.

(** Lines 114-115: [df[col].mode()[0] if not df.empty else "-"] *)
Definition top (df : DataFrame) (col : string) : result pyval :=
  if negb (empty df) then
    match getitem df col with
    | Ok s => first (mode s)
    | Raise e => Raise e
    end
  else Ok (PStr "-").

(** Lines 123 and 126: [df[col].value_counts()] *)
Definition counts (df : DataFrame) (col : string) : result (gmap pyval nat) :=
  match getitem df col with
  | Ok s => Ok (value_counts s)
  | Raise e => Raise e
  end.

Definition no_data : string :=
  "No OPD data available. Add entries using 'Add OPD Entry'.".

(** Lines 96-130: what the overview draws for the frame [df]. *)
Definition show_overview (w : widgets) (df : DataFrame) : M unit :=
  if empty df then emit (StInfo no_data)
  else
    df <- lift (filter_by_date df (selected_date w)) ;;
    emit (StMetric "Total Patients" (PInt (len df))) ;;;
    n <- lift (follow_ups df) ;;
    emit (StMetric "Follow-ups" (PInt n)) ;;;
    d <- lift (top df "Diagnosis") ;;
    emit (StMetric "Top Diagnosis" d) ;;;
    p <- lift (top df "Prakriti") ;;
    emit (StMetric "Dominant Prakriti" p) ;;;
    dc <- lift (counts df "Diagnosis") ;;
    emit (StBarChart dc) ;;;
    pc <- lift (counts df "Prakriti") ;;
    emit (StBarChart pc) ;;;
    emit (StDataFrame df).

(** Lines 91-130. *)
Definition overview (w : widgets) : M unit :=
  records <- get_all_records ;;
  let df := from_records records in
  store_opd_json (to_dict df) ;;;
  show_overview w df.

(** *** Prompt (lines 140-162) *)
Definition nl : string := String (ascii_of_N 10) "".

(** The text before the data, between the data and the user's text, and
    after it. *)
Definition prompt_head : string :=
  nl +:+ "You are assisting an Ayurvedic doctor." +:+ nl
  +:+ nl
  +:+ "STRICT RULES:" +:+ nl
  +:+ "- Do NOT diagnose" +:+ nl
  +:+ "- Do NOT suggest medicines" +:+ nl
  +:+ "- Do NOT change treatment" +:+ nl
  +:+ "- Only summarize and observe patterns" +:+ nl
  +:+ "- Use simple, non-alarming language" +:+ nl
  +:+ nl
  +:+ "OPD DATA:" +:+ nl.

Definition prompt_task : string :=
  nl
  +:+ nl
  +:+ "TASK:" +:+ nl
  +:+ "1. Give a short OPD summary + ".

Definition prompt_tail : string :=
  nl
  +:+ "2. List most common complaints" +:+ nl
  +:+ "3. List common diagnoses" +:+ nl
  +:+ "4. Mention prakriti trends" +:+ nl
  +:+ "5. Mention follow-up workload" +:+ nl
  +:+ "6. How Next week will be?" +:+ nl
  +:+ "7. How I can be Prepared?" +:+ nl.

Definition build_opd_prompt (opd_json : list dict) (user_prompt : string) : string :=
  prompt_head +:+ repr_records opd_json +:+ prompt_task +:+ user_prompt +:+ prompt_tail.

(** The fixed lines of the template: the role statement, the five rules,
    and the seven numbered tasks (the first one up to where the user's text is
    inserted). *)
Definition role_line : string := "You are assisting an Ayurvedic doctor.".

Definition rules : list string :=
  [ "- Do NOT diagnose";
    "- Do NOT suggest medicines";
    "- Do NOT change treatment";
    "- Only summarize and observe patterns";
    "- Use simple, non-alarming language" ].

Definition tasks : list string :=
  [ "1. Give a short OPD summary + ";
    "2. List most common complaints";
    "3. List common diagnoses";
    "4. Mention prakriti trends";
    "5. Mention follow-up workload";
    "6. How Next week will be?";
    "7. How I can be Prepared?" ].

(** [p] occurs in [s] as a contiguous piece. *)
Definition occurs_in (p s : string) : Prop := exists a b, s = a +:+ p +:+ b.

Fixpoint starts_with (p s : string) : bool :=
  match p, s with
  | EmptyString, _ => true
  | String c p', String d s' => Ascii.eqb c d && starts_with p' s'
  | String _ _, EmptyString => false
  end.

(** The same as a test. *)
Fixpoint occursb (p s : string) : bool :=
  starts_with p s ||
  match s with
  | EmptyString => false
  | String _ s' => occursb p s'
  end.

(** *** Prompt playground (lines 167-194) *)
Definition system_content : string :=
  "You are assiting ayurvedic doctor for his OPD summary and analysis".

(** Lines 180-187: the arguments of [client.chat.completions.create]. *)
Definition chat_request (prompt : string) : request :=
  mkreq "gpt-4o-mini"
        [mkmsg "user" prompt; mkmsg "system" system_content]
        (3, 10).

(** [response.choices[0].message.content], the response given as the
    contents of its choices. *)
Definition first_choice (choices : list string) : result string :=
  match choices with
  | c :: _ => Ok c
  | [] => Raise IndexError
  end.

Section Service.

(** The remote service: the choices it answers a request with. *)
Variable service : request -> list string.

(** Lines 176-194, the body of [if st.button("Generate Response"):]. *)
Definition generate (prompt user_prompt : string) : M unit :=
  if String.eqb (strip user_prompt) "" then
    emit (StWarning "Please enter a prompt")
  else
    let req := chat_request prompt in
    emit (ChatCreate req) ;;;
    ai_output <- lift (first_choice (service req)) ;;
    emit (StTextArea "AI Response" ai_output).

(** Line 173: [prompt = build_opd_prompt(opd_json, user_prompt)], with the
    global [opd_json] looked up when the call is evaluated. *)
Definition build_prompt_stmt (user_prompt : string) : M string :=
  j <- load_opd_json ;;
  ret (build_opd_prompt j user_prompt).

(** Lines 40-173: everything up to and including line 173; returns the
    prompt. *)
Definition before_generate (w : widgets) : M string :=
  sidebar w ;;;
  view <- get_view ;;
  (if String.eqb view "entry" then add_entry w else overview w) ;;;
  build_prompt_stmt (user_prompt w).

(** One run of the script. *)
Definition script (w : widgets) : M unit :=
  prompt <- before_generate w ;;
  when (btn_generate w) (generate prompt (user_prompt w)).

End Service.

(** The requests a trace holds. *)
Definition chat_calls (t : list event) : list request :=
  omap (fun e => match e with ChatCreate r => Some r | _ => None end) t.

(** The values drawn by the metrics labelled [label], in order. *)
Definition metric_values (label : string) (t : list event) : list pyval :=
  omap (fun e => match e with
                 | StMetric l v => if String.eqb l label then Some v else None
                 | _ => None
                 end) t.

(** The calls to the worksheet a trace holds. *)
Definition is_sheet_call (e : event) : bool :=
  match e with
  | SheetAppend _ | SheetRead => true
  | _ => false
  end.

Definition sheet_calls (t : list event) : list event := List.filter is_sheet_call t.

(** The view a run displays: lines 40-44 applied to the session's view. *)
Definition displayed_view (view : string) (w : widgets) : string :=
  if btn_add_entry w then "entry"
  else if btn_overview w then "overview"
  else view.

End App.

Import Pandas App.

(** ** Sample data for the checks below *)
Module Sample.

(** The values of one visit, in the order of the schema. *)
Definition visit (d name : string) (a : Z) (g p c dx f : string) : list pyval :=
  [PStr d; PStr name; PInt a; PStr g; PStr p; PStr c; PStr dx; PStr f].

(** A run in which nothing is pressed or typed. *)
Definition idle : widgets :=
  mkwidgets false false (mkdate 2024 1 1) "" 0 "Male" "Vata" "" "" "Yes"
            false false None "" false.

(** A run of the overview with the date filter set. *)
Definition filtering (d : date) : widgets :=
  mkwidgets false false (mkdate 2024 1 1) "" 0 "Male" "Vata" "" "" "Yes"
            false false (Some d) "" false.

(** A run in which the entry form is saved. *)
Definition saving (d : date) (name : string) (a : Z) (g p c dx f : string) : widgets :=
  mkwidgets false false d name a g p c dx f true false None "" false.

(** A run in which Generate Response is pressed with [u] in the text box. *)
Definition asking (u : string) : widgets :=
  mkwidgets false false (mkdate 2024 1 1) "" 0 "Male" "Vata" "" "" "Yes"
            false false None u true.

(** A service that answers every request with two choices. *)
Definition two_choices (r : request) : list string := ["first"; "second"].

Definition no_rows : Sheet.worksheet := Sheet.mksheet Sheet.schema [].

(** Three visits, dated 2024-01-01, 2024-01-01 and 2024-01-02, with
    diagnoses Cold, Cold and Fever. *)
Definition three_visits : Sheet.worksheet :=
  Sheet.mksheet Sheet.schema
    [ visit "2024-01-01" "Asha" 34 "Female" "Vata" "Cough" "Cold" "Yes";
      visit "2024-01-01" "Ravi" 51 "Male" "Pitta" "Sneezing" "Cold" "No";
      visit "2024-01-02" "Meera" 8 "Female" "Kapha" "Chills" "Fever" "Yes" ].

(** Frames whose header lost a column name. *)
Definition no_date_column : DataFrame :=
  mkframe ["Day"; "FollowUp"] [[("Day", PStr "2024-01-01"); ("FollowUp", PStr "Yes")]].

Definition no_followup_column : DataFrame :=
  mkframe ["Date"; "Follow"] [[("Date", PStr "2024-01-01"); ("Follow", PStr "Yes")]].

End Sample.

(** * Properties *)

Local Open Scope app_scope.

Arguments from_records : simpl never.

(** ** Small checks of the embedding *)

Example str_date_ex : str_date (mkdate 2024 1 2) = "2024-01-02".
Proof. reflexivity. Qed.

Example strip_ex : strip (String (ascii_of_N 9) "  a b  ") = "a b".
Proof. reflexivity. Qed.

Example repr_ex :
  repr_records [[("Date", PStr "2024-01-01"); ("Age", PInt 30)]; [("Name", PStr "O'Neil")]]
  = "[{'Date': '2024-01-01', 'Age': 30}, {'Name': "
    +:+ String dquote ("O'Neil" +:+ String dquote "}]").
Proof. reflexivity. Qed.

Example repr_int_ex : repr (PInt (-12)) = "-12" /\ repr (PInt 0) = "0".
Proof. split; reflexivity. Qed.

Example value_counts_ex :
  value_counts [PStr "Cold"; PStr "Fever"; PStr "Cold"]
  = {[ PStr "Cold" := 2%nat; PStr "Fever" := 1%nat ]}.
Proof. vm_compute. reflexivity. Qed.

Example mode_ex :
  mode [PStr "Fever"; PStr "Cold"; PStr "Fever"; PStr "Cold"; PStr "Ama"]
  = [PStr "Cold"; PStr "Fever"].
Proof. vm_compute. reflexivity. Qed.

Example from_records_ex :
  from_records [[("a", PInt 1); ("b", PInt 2)]; [("b", PInt 3); ("c", PInt 4)]]
  = mkframe ["a"; "b"; "c"]
      [[("a", PInt 1); ("b", PInt 2); ("c", PNaN)];
       [("a", PNaN); ("b", PInt 3); ("c", PInt 4)]].
Proof. vm_compute. reflexivity. Qed.

(** ** [str.strip] *)

Lemma lstrip_all_space s : all_space s = true -> lstrip s = "".
Proof.
  induction s as [|c s IH]; simpl; [reflexivity|].
  intros H. apply andb_true_iff in H as [Hc Hs]. rewrite Hc. auto.
Qed.

Lemma lstrip_some s :
  all_space s = false ->
  exists c s', lstrip s = String c s' /\ isspace c = false.
Proof.
  induction s as [|c s IH]; simpl; [discriminate|].
  destruct (isspace c) eqn:Hc; simpl; eauto.
Qed.

Lemma rstrip_nonspace c s : isspace c = false -> rstrip (String c s) <> "".
Proof.
  intros Hc. simpl. rewrite Hc. destruct (rstrip s); discriminate.
Qed.

Lemma strip_blank s : String.eqb (strip s) "" = all_space s.
Proof.
  unfold strip. destruct (all_space s) eqn:H.
  - rewrite lstrip_all_space by assumption. reflexivity.
  - destruct (lstrip_some s H) as (c & s' & -> & Hc).
    apply String.eqb_neq. now apply rstrip_nonspace.
Qed.

Example strip_blank_ex :
  strip (String (ascii_of_N 10) (String (ascii_of_N 9) "  ")) = "" /\ strip " x " = "x".
Proof. split; reflexivity. Qed.

(** ** Running the monad *)

Ltac run :=
  unfold script, before_generate, build_prompt_stmt, generate, overview,
    show_overview, add_entry, sidebar, when, bind, ret, lift, emit, get_view, set_view,
    store_opd_json, load_opd_json, App.append_row, App.get_all_records;
  simpl.

Ltac split_results :=
  repeat match goal with
         | |- context [match ?r with Ok _ => _ | Raise _ => _ end] =>
             let E := fresh "E" in destruct r eqn:E; simpl
         end.

Lemma chat_calls_snoc t e :
  chat_calls (t ++ [e]) =
  chat_calls t ++ match e with ChatCreate r => [r] | _ => [] end.
Proof.
  unfold chat_calls. rewrite omap_app. simpl. destruct e; reflexivity.
Qed.

Lemma getitem_raise df c e : getitem df c = Raise e -> e = KeyError (PStr c).
Proof. unfold getitem. case_bool_decide; congruence. Qed.

Lemma getitem_ok df c :
  c ∈ columns df ->
  getitem df c = Ok (map (fun r => default PNaN (dict_get c r)) (rows df)).
Proof. intros H. unfold getitem. now rewrite bool_decide_eq_true_2. Qed.

Lemma filter_by_date_raise df sel e : filter_by_date df sel = Raise e -> key_error e.
Proof.
  unfold filter_by_date. destruct sel; [|discriminate].
  destruct (getitem df "Date") eqn:E; [discriminate|].
  intros [= <-]. now rewrite (getitem_raise _ _ _ E).
Qed.

Lemma follow_ups_raise df e : follow_ups df = Raise e -> key_error e.
Proof.
  unfold follow_ups. destruct (getitem df "FollowUp") eqn:E; [discriminate|].
  intros [= <-]. now rewrite (getitem_raise _ _ _ E).
Qed.

Lemma top_raise df c e : top df c = Raise e -> key_error e.
Proof.
  unfold top. destruct (negb (empty df)); [|discriminate].
  destruct (getitem df c) eqn:E.
  - unfold first. destruct (mode a); [|discriminate]. now intros [= <-].
  - intros [= <-]. now rewrite (getitem_raise _ _ _ E).
Qed.

Lemma counts_raise df c e : counts df c = Raise e -> key_error e.
Proof.
  unfold counts. destruct (getitem df c) eqn:E; [discriminate|].
  intros [= <-]. now rewrite (getitem_raise _ _ _ E).
Qed.

Lemma overview_unfold w st :
  overview w st
  = show_overview w (from_records (Sheet.get_all_records (sheet st)))
      (mkstate (sheet st) (current_view st)
         (Some (to_dict (from_records (Sheet.get_all_records (sheet st)))))
         (trace st ++ [SheetRead])).
Proof. reflexivity. Qed.

(** What every run of the overview leaves behind, whether it completes or
    stops at a missing column: [opd_json] is bound to all the records, the
    worksheet and the view are untouched, no request has been sent. *)
Lemma overview_facts w st :
  opd_json (snd (overview w st))
    = Some (to_dict (from_records (Sheet.get_all_records (sheet st)))) /\
  sheet (snd (overview w st)) = sheet st /\
  current_view (snd (overview w st)) = current_view st /\
  chat_calls (trace (snd (overview w st))) = chat_calls (trace st) /\
  (forall e, fst (overview w st) = Raise e -> key_error e).
Proof.
  run.
  destruct (empty (from_records (Sheet.get_all_records (sheet st)))); simpl.
  { rewrite !chat_calls_snoc, !app_nil_r. repeat split; discriminate. }
  split_results;
    rewrite ?chat_calls_snoc, ?app_nil_r;
    repeat split; try discriminate;
    intros ? [= <-];
    eauto using filter_by_date_raise, follow_ups_raise, top_raise, counts_raise.
Qed.

Lemma sidebar_facts w st :
  fst (sidebar w st) = Ok tt /\
  sheet (snd (sidebar w st)) = sheet st /\
  opd_json (snd (sidebar w st)) = opd_json st /\
  trace (snd (sidebar w st)) = trace st.
Proof. run. destruct (btn_overview w), (btn_add_entry w); simpl; auto. Qed.

Lemma add_entry_facts w st :
  fst (add_entry w st) = Ok tt /\
  opd_json (snd (add_entry w st)) = opd_json st /\
  chat_calls (trace (snd (add_entry w st))) = chat_calls (trace st) /\
  sheet (snd (add_entry w st))
    = (if submitted w then Sheet.append_row (entry_row w) (sheet st) else sheet st).
Proof.
  run. destruct (submitted w), (cancel w); simpl;
    rewrite ?chat_calls_snoc, ?app_nil_r; auto.
Qed.

(** ** The frame built from the worksheet's records *)

Lemma keys_record_of hdr row : keys (Sheet.record_of hdr row) = hdr.
Proof.
  revert row. induction hdr as [|h hdr IH]; intros row; simpl; [reflexivity|].
  now rewrite IH.
Qed.

Lemma fold_add_label_known l acc :
  (forall k, k ∈ l -> k ∈ acc) -> fold_left add_label l acc = acc.
Proof.
  revert acc. induction l as [|k l IH]; intros acc H; simpl; [reflexivity|].
  unfold add_label at 2. rewrite bool_decide_eq_true_2 by (apply H; left).
  apply IH. intros k' Hk'. apply H. now right.
Qed.

Lemma fold_add_label_fresh l acc :
  NoDup (acc ++ l) -> fold_left add_label l acc = acc ++ l.
Proof.
  revert acc. induction l as [|k l IH]; intros acc H; simpl.
  - now rewrite app_nil_r.
  - unfold add_label at 2. rewrite bool_decide_eq_false_2.
    + rewrite IH; rewrite <- app_assoc; [reflexivity | exact H].
    + apply NoDup_app in H as (_ & H & _). intros Hk. apply (H k Hk). left.
Qed.

Lemma labels_records hdr row data :
  NoDup hdr -> labels (map (Sheet.record_of hdr) (row :: data)) = hdr.
Proof.
  intros Hnd. unfold labels. simpl. rewrite keys_record_of, fold_left_app.
  rewrite (fold_add_label_fresh hdr []) by exact Hnd. simpl.
  apply fold_add_label_known. intros k Hk.
  apply list_elem_of_In, in_concat in Hk as (ks & Hks & Hk).
  apply in_map_iff in Hks as (r & <- & Hr).
  apply in_map_iff in Hr as (r' & <- & _).
  rewrite keys_record_of in Hk. now apply list_elem_of_In.
Qed.

Lemma dict_get_here k v d : dict_get k ((k, v) :: d) = Some v.
Proof. unfold dict_get. simpl. now rewrite String.eqb_refl. Qed.

Lemma dict_get_app_fresh k d1 d2 :
  k ∉ keys d1 -> dict_get k (d1 ++ d2) = dict_get k d2.
Proof.
  induction d1 as [|[k' v] d1 IH]; intros H; simpl; [reflexivity|].
  unfold dict_get in *. simpl.
  destruct (String.eqb k' k) eqn:E.
  - apply String.eqb_eq in E as ->. exfalso. apply H. left.
  - apply IH. intros Hk. apply H. now right.
Qed.

Lemma align_record_of_aux pre hdr row :
  NoDup (keys pre ++ hdr) ->
  map (fun c => (c, default PNaN (dict_get c (pre ++ Sheet.record_of hdr row)))) hdr
  = Sheet.record_of hdr row.
Proof.
  revert pre row. induction hdr as [|h hdr IH]; intros pre row Hnd; simpl;
    [reflexivity|].
  f_equal.
  - rewrite dict_get_app_fresh, dict_get_here; [reflexivity|].
    apply NoDup_app in Hnd as (_ & H & _). intros Hk. apply (H h Hk). left.
  - specialize (IH (pre ++ [(h, hd (PStr "") row)]) (tl row)).
    rewrite <- app_assoc in IH. simpl in IH. apply IH.
    unfold keys. rewrite map_app. simpl. now rewrite <- app_assoc.
Qed.

Lemma align_record_of hdr row :
  NoDup hdr -> align hdr (Sheet.record_of hdr row) = Sheet.record_of hdr row.
Proof. intros H. apply (align_record_of_aux [] hdr row). exact H. Qed.

(** With distinct column names, the frame of a worksheet has the header as
    its labels (no labels when there is no data row) and the records as its
    rows. *)
Lemma from_records_sheet ws :
  NoDup (Sheet.header ws) ->
  from_records (Sheet.get_all_records ws)
  = mkframe (match Sheet.data ws with [] => [] | _ => Sheet.header ws end)
            (Sheet.get_all_records ws).
Proof.
  intros Hnd. unfold from_records, Sheet.get_all_records.
  destruct (Sheet.data ws) as [|row data] eqn:E; [reflexivity|].
  rewrite labels_records by exact Hnd. f_equal.
  rewrite map_map. apply map_ext. intros r. now apply align_record_of.
Qed.

Lemma schema_nodup : NoDup Sheet.schema.
Proof. compute_done. Qed.

(** ** Follow-up count *)

Lemma value_counts_get col v :
  notna v = true -> get (value_counts col) v 0 = occurrences v col.
Proof.
  intros Hv. unfold get, occurrences.
  induction col as [|x col IH]; simpl; [now rewrite lookup_empty|].
  unfold count_in. rewrite filter_cons.
  destruct (decide (x = v)) as [->|Hne].
  - rewrite Hv, lookup_insert_eq. simpl. now rewrite IH.
  - destruct (notna x); [rewrite lookup_insert_ne by done|]; exact IH.
Qed.

Lemma occurrences_column c v (l : list dict) :
  v <> PNaN ->
  occurrences v (map (fun r => default PNaN (dict_get c r)) l)
  = length (filter (fun r => dict_get c r = Some v) l).
Proof.
  intros Hv. unfold occurrences.
  induction l as [|r l IH]; simpl; [reflexivity|].
  rewrite !filter_cons.
  repeat case_decide; simpl; rewrite ?IH; try reflexivity;
    destruct (dict_get c r); simpl in *; congruence.
Qed.

(** The expression of line 113 on a frame that has a [FollowUp] column: the
    number of rows whose [FollowUp] cell is the string "Yes". *)
Lemma follow_ups_counts_yes (df : DataFrame) :
  "FollowUp" ∈ columns df ->
  follow_ups df
  = Ok (Z.of_nat (length (filter (fun r => dict_get "FollowUp" r = Some (PStr "Yes"))
                                 (rows df)))).
Proof.
  intros Hcol. unfold follow_ups. rewrite getitem_ok by exact Hcol.
  rewrite value_counts_get by reflexivity.
  now rewrite occurrences_column by discriminate.
Qed.

Example follow_ups_none :
  follow_ups (mkframe ["FollowUp"] [[("FollowUp", PStr "No")]; [("FollowUp", PStr "yes")]])
  = Ok 0.
Proof. reflexivity. Qed.

Example follow_ups_all :
  follow_ups (mkframe ["FollowUp"] [[("FollowUp", PStr "Yes")]; [("FollowUp", PStr "Yes")]])
  = Ok 2.
Proof. reflexivity. Qed.

(** ** The date filter *)

Lemma select_map {A} (f : A -> bool) (l : list A) :
  select l (map f l) = List.filter f l.
Proof.
  induction l as [|x l IH]; simpl; [reflexivity|].
  destruct (f x); now rewrite IH.
Qed.

Lemma filter_by_date_none df : filter_by_date df None = Ok df.
Proof. reflexivity. Qed.

Lemma filter_by_date_some df d :
  "Date" ∈ columns df ->
  filter_by_date df (Some d)
  = Ok (mkframe (columns df)
                (List.filter (fun r => py_eq (date_cell r) (PDate d)) (rows df))).
Proof.
  intros H. unfold filter_by_date. rewrite getitem_ok by exact H.
  unfold getmask, eq_scalar. now rewrite map_map, select_map.
Qed.

Lemma filter_by_date_columns df sel df' :
  filter_by_date df sel = Ok df' -> columns df' = columns df.
Proof.
  unfold filter_by_date. destruct sel; [|now intros [= <-]].
  destruct (getitem df "Date"); [|discriminate]. now intros [= <-].
Qed.

(** A sheet cell is a string or a number, and neither is equal to a
    [datetime.date]: with a date chosen in the filter, no row is kept. *)
Lemma filter_by_date_sheet_cells df d :
  "Date" ∈ columns df ->
  (forall r e, r ∈ rows df -> date_cell r <> PDate e) ->
  filter_by_date df (Some d) = Ok (mkframe (columns df) []).
Proof.
  intros Hcol Hcells. rewrite filter_by_date_some by exact Hcol. do 2 f_equal.
  induction (rows df) as [|r l IH]; simpl; [reflexivity|].
  destruct (date_cell r) as [s|n|e|] eqn:E; simpl;
    try (apply IH; intros r' e' Hr'; apply Hcells; now right).
  exfalso. apply (Hcells r e); [left | exact E].
Qed.

(** ** The follow-up metric of the overview *)

Lemma metric_values_snoc label t e :
  metric_values label (t ++ [e])
  = metric_values label t ++
    match e with
    | StMetric l v => if String.eqb l label then [v] else []
    | _ => []
    end.
Proof.
  unfold metric_values. rewrite omap_app. simpl.
  destruct e; try reflexivity. now destruct (String.eqb label0 label).
Qed.

(** The store is empty: the overview shows no follow-up count, not even 0. *)
Lemma no_follow_ups_shown_for_empty_store :
  metric_values "Follow-ups"
    (trace (snd (overview Sample.idle (start Sample.no_rows "overview")))) = [] /\
  metric_values "Follow-ups"
    (trace (snd (overview Sample.idle (start Sample.no_rows "overview")))) <> [PInt 0].
Proof. split; [reflexivity | discriminate]. Qed.

(** C4, amended.  Let the store's header have distinct names, among them
    [FollowUp] (and [Date] when a date is chosen).  When the store has data
    rows, the overview draws exactly one "Follow-ups" metric, and its value
    is the number of displayed records (all records, or those the date
    filter keeps) whose [FollowUp] cell is the string "Yes" -- none of them,
    all of them or any number in between.  When the store has no data row,
    the overview draws no "Follow-ups" metric. *)
Theorem overview_follow_ups_metric (w : widgets) (st : state) :
  NoDup (Sheet.header (sheet st)) ->
  "FollowUp" ∈ Sheet.header (sheet st) ->
  (selected_date w = None \/ "Date" ∈ Sheet.header (sheet st)) ->
  metric_values "Follow-ups" (trace (snd (overview w st)))
  = metric_values "Follow-ups" (trace st) ++
    match Sheet.data (sheet st) with
    | [] => []
    | _ =>
        [PInt (Z.of_nat (length
           (filter (fun r => dict_get "FollowUp" r = Some (PStr "Yes"))
              (match selected_date w with
               | None => Sheet.get_all_records (sheet st)
               | Some d =>
                   List.filter (fun r => py_eq (date_cell r) (PDate d))
                     (Sheet.get_all_records (sheet st))
               end))))]
    end.
Proof.
  intros Hnd Hf Hdate.
  rewrite overview_unfold, (from_records_sheet _ Hnd).
  destruct (Sheet.data (sheet st)) as [|row data] eqn:E.
  - unfold Sheet.get_all_records. rewrite E. unfold show_overview, emit. simpl.
    rewrite !metric_values_snoc. simpl. now rewrite !app_nil_r.
  - set (records := Sheet.get_all_records (sheet st)).
    set (df := mkframe (Sheet.header (sheet st)) records).
    assert (He : empty df = false).
    { subst df records. unfold empty, Sheet.get_all_records. rewrite E. simpl.
      destruct (Sheet.header (sheet st)); [now apply elem_of_nil in Hf | reflexivity]. }
    set (shown := match selected_date w with
                  | None => records
                  | Some d => List.filter (fun r => py_eq (date_cell r) (PDate d)) records
                  end).
    assert (Hfilter : filter_by_date df (selected_date w)
                      = Ok (mkframe (Sheet.header (sheet st)) shown)).
    { subst shown. destruct (selected_date w) as [d|] eqn:Es; [|reflexivity].
      destruct Hdate as [|Hd]; [discriminate|].
      now rewrite filter_by_date_some by exact Hd. }
    assert (Hfu : follow_ups (mkframe (Sheet.header (sheet st)) shown)
                  = Ok (Z.of_nat (length
                      (filter (fun r => dict_get "FollowUp" r = Some (PStr "Yes")) shown))))
      by (now rewrite follow_ups_counts_yes by exact Hf).
    unfold show_overview. rewrite He.
    unfold bind at 1, lift at 1. rewrite Hfilter.
    unfold bind at 1, emit at 1. unfold bind at 1, lift at 1. rewrite Hfu.
    unfold bind, lift, emit. cbn [sheet current_view opd_json trace].
    split_results; cbn [snd trace];
      rewrite !metric_values_snoc; cbn -[filter]; now rewrite ?app_nil_r.
Qed.

Lemma overview_follow_ups_metric_witness :
  NoDup (Sheet.header (sheet (start Sample.three_visits "overview"))) /\
  ("FollowUp" ∈ Sheet.header (sheet (start Sample.three_visits "overview"))) /\
  (selected_date Sample.idle = None \/
   "Date" ∈ Sheet.header (sheet (start Sample.three_visits "overview"))) /\
  metric_values "Follow-ups"
    (trace (snd (overview Sample.idle (start Sample.three_visits "overview"))))
  = [PInt 2].
Proof.
  assert (H1 : NoDup (Sheet.header (sheet (start Sample.three_visits "overview"))))
    by compute_done.
  assert (H2 : "FollowUp" ∈ Sheet.header (sheet (start Sample.three_visits "overview")))
    by compute_done.
  split; [exact H1|]. split; [exact H2|]. split; [left; reflexivity|].
  exact (overview_follow_ups_metric Sample.idle (start Sample.three_visits "overview")
           H1 H2 (or_introl eq_refl)).
Defined.

(** C1 (the code departs from the claim).  A visit saved through the entry
    form on 2024-01-01 is stored with the date as the string [str(opd_date)];
    the overview compares that string with the [datetime.date] chosen in the
    filter, so filtering the store to 2024-01-01 keeps no row, although the
    only record is dated 2024-01-01. *)
Theorem date_filter_loses_saved_visit :
  let d := mkdate 2024 1 1 in
  let saved :=
    sheet (snd (script Sample.two_choices
                  (Sample.saving d "Asha" 34 "Female" "Vata" "Cough" "Cold" "Yes")
                  (start Sample.no_rows "entry"))) in
  Sheet.get_all_records saved
  = [[("Date", PStr (str_date d)); ("Name", PStr "Asha"); ("Age", PInt 34);
      ("Gender", PStr "Female"); ("Prakriti", PStr "Vata");
      ("Complaint", PStr "Cough"); ("Diagnosis", PStr "Cold");
      ("FollowUp", PStr "Yes")]] /\
  filter_by_date (from_records (Sheet.get_all_records saved)) (Some d)
  = Ok (mkframe Sheet.schema []).
Proof. vm_compute. split; reflexivity. Qed.

(** C2 (the code departs from the claim).  On the store of the scenario,
    with the filter set to 2024-01-01, the overview shows total 0, top
    diagnosis "-" and an empty diagnosis chart: the filter keeps no row.
    Handed the two records of that day, the same aggregates are 2, "Cold"
    and {Cold: 2}. *)
Theorem scenario_filtered_to_first_day :
  trace (snd (overview (Sample.filtering (mkdate 2024 1 1))
                (start Sample.three_visits "overview")))
  = [SheetRead;
     StMetric "Total Patients" (PInt 0);
     StMetric "Follow-ups" (PInt 0);
     StMetric "Top Diagnosis" (PStr "-");
     StMetric "Dominant Prakriti" (PStr "-");
     StBarChart ∅; StBarChart ∅;
     StDataFrame (mkframe Sheet.schema [])] /\
  (let day1 :=
     mkframe Sheet.schema
       (List.filter (fun r => py_eq (date_cell r) (PStr "2024-01-01"))
                    (Sheet.get_all_records Sample.three_visits)) in
   len day1 = 2 /\
   top day1 "Diagnosis" = Ok (PStr "Cold") /\
   counts day1 "Diagnosis" = Ok {[ PStr "Cold" := 2%nat ]}).
Proof. vm_compute. repeat split; reflexivity. Qed.

(** ** The overview of an empty record set *)

(** The store is empty: the overview shows the notice and no metric. *)
Lemma empty_store_shows_no_metric :
  overview Sample.idle (start Sample.no_rows "overview")
  = (Ok tt, mkstate Sample.no_rows "overview" (Some []) [SheetRead; StInfo no_data]) /\
  ~ In (StMetric "Total Patients" (PInt 0))
       (trace (snd (overview Sample.idle (start Sample.no_rows "overview")))).
Proof.
  split; [reflexivity|].
  vm_compute. intros [H|[H|[]]]; discriminate.
Qed.

(** C3, amended.  Let the store have the schema's header.  When it has no
    data row, the overview completes and shows the notice, and no metric; when
    it has data rows and the date filter keeps none of them, the overview
    completes and shows total 0, follow-ups 0, "-" for the top diagnosis and
    for the dominant prakriti, two empty charts and an empty table.  No
    exception is raised in either case. *)
Theorem overview_of_empty_set (w : widgets) (st : state) :
  Sheet.header (sheet st) = Sheet.schema ->
  (Sheet.data (sheet st) = [] \/
   exists df',
     filter_by_date (from_records (Sheet.get_all_records (sheet st))) (selected_date w)
       = Ok df' /\ rows df' = []) ->
  overview w st
  = (Ok tt,
     mkstate (sheet st) (current_view st) (Some (Sheet.get_all_records (sheet st)))
       (trace st ++ SheetRead ::
          match Sheet.data (sheet st) with
          | [] => [StInfo no_data]
          | _ => [StMetric "Total Patients" (PInt 0);
                  StMetric "Follow-ups" (PInt 0);
                  StMetric "Top Diagnosis" (PStr "-");
                  StMetric "Dominant Prakriti" (PStr "-");
                  StBarChart ∅; StBarChart ∅;
                  StDataFrame (mkframe Sheet.schema [])]
          end)).
Proof.
  intros Hh Hempty.
  assert (Hnd : NoDup (Sheet.header (sheet st))) by (rewrite Hh; apply schema_nodup).
  rewrite overview_unfold.
  rewrite (from_records_sheet _ Hnd) in *. unfold to_dict. cbn [rows].
  unfold Sheet.get_all_records in *. rewrite Hh in *.
  destruct (Sheet.data (sheet st)) as [|row data] eqn:E.
  - unfold show_overview, emit. simpl. now rewrite <- app_assoc.
  - destruct Hempty as [|(df' & Hf & Hrows)]; [discriminate|].
    pose proof (filter_by_date_columns _ _ _ Hf) as Hcols. simpl in Hcols.
    assert (df' = mkframe Sheet.schema []) as ->
      by (destruct df'; simpl in *; congruence).
    unfold show_overview. replace (empty _) with false by reflexivity.
    unfold bind at 1, lift at 1. rewrite Hf.
    unfold bind, lift, emit. simpl. rewrite <- !app_assoc. reflexivity.
Qed.

Lemma overview_of_empty_set_witness :
  Sheet.header (sheet (start Sample.three_visits "overview")) = Sheet.schema /\
  (Sheet.data (sheet (start Sample.three_visits "overview")) = [] \/
   exists df',
     filter_by_date
       (from_records (Sheet.get_all_records (sheet (start Sample.three_visits "overview"))))
       (selected_date (Sample.filtering (mkdate 2024 1 2)))
       = Ok df' /\ rows df' = []) /\
  fst (overview (Sample.filtering (mkdate 2024 1 2)) (start Sample.three_visits "overview"))
  = Ok tt.
Proof.
  assert (H : exists df',
     filter_by_date
       (from_records (Sheet.get_all_records (sheet (start Sample.three_visits "overview"))))
       (selected_date (Sample.filtering (mkdate 2024 1 2)))
       = Ok df' /\ rows df' = [])
    by (exists (mkframe Sheet.schema []); split; vm_compute; reflexivity).
  split; [reflexivity|]. split; [right; exact H|].
  rewrite (overview_of_empty_set (Sample.filtering (mkdate 2024 1 2))
             (start Sample.three_visits "overview") eq_refl (or_intror H)).
  reflexivity.
Defined.

(** ** The prompt statement and the Generate button *)

Lemma build_prompt_stmt_bound u st j :
  opd_json st = Some j ->
  build_prompt_stmt u st = (Ok (build_opd_prompt j u), st).
Proof. intros H. unfold build_prompt_stmt, bind, load_opd_json, ret. now rewrite H. Qed.

Lemma build_prompt_stmt_unbound u st :
  opd_json st = None ->
  build_prompt_stmt u st = (Raise (NameError "opd_json"), st).
Proof. intros H. unfold build_prompt_stmt, bind, load_opd_json. now rewrite H. Qed.

(** Lines 40-173 as: the sidebar, one of the two views, the prompt
    statement. *)
Lemma before_generate_unfold w st :
  before_generate w st =
  match (if String.eqb (current_view (snd (sidebar w st))) "entry"
         then add_entry w else overview w) (snd (sidebar w st)) with
  | (Ok _, st2) => build_prompt_stmt (user_prompt w) st2
  | (Raise e, st2) => (Raise e, st2)
  end.
Proof.
  unfold before_generate, bind, get_view.
  destruct (sidebar_facts w st) as (H & _).
  destruct (sidebar w st) as [[[]|e] s1]; simpl in *; [reflexivity|discriminate].
Qed.

(** When the run reaches line 173 and passes it, [opd_json] is bound, the
    prompt is built from it, and no request has been sent so far. *)
Lemma before_generate_ok w st prompt st1 :
  before_generate w st = (Ok prompt, st1) ->
  (exists j, opd_json st1 = Some j /\ prompt = build_opd_prompt j (user_prompt w)) /\
  chat_calls (trace st1) = chat_calls (trace st).
Proof.
  rewrite before_generate_unfold.
  destruct (sidebar_facts w st) as (_ & _ & _ & Ht).
  set (s1 := snd (sidebar w st)) in *.
  assert (Hq : forall r2 st2,
             (if String.eqb (current_view s1) "entry"
              then add_entry w else overview w) s1 = (r2, st2) ->
             chat_calls (trace st2) = chat_calls (trace st)).
  { intros r2 st2 E. rewrite <- Ht.
    destruct (String.eqb (current_view s1) "entry").
    - destruct (add_entry_facts w s1) as (_ & _ & H & _). now rewrite E in H.
    - destruct (overview_facts w s1) as (_ & _ & _ & H & _). now rewrite E in H. }
  destruct ((if String.eqb (current_view s1) "entry"
             then add_entry w else overview w) s1) as [[[]|e] st2] eqn:E;
    [|discriminate].
  specialize (Hq _ _ eq_refl).
  destruct (opd_json st2) as [j|] eqn:Ej.
  - rewrite (build_prompt_stmt_bound _ _ _ Ej). intros [= <- <-]. eauto.
  - rewrite (build_prompt_stmt_unbound _ _ Ej). discriminate.
Qed.

(** What the body of the Generate button does. *)
Lemma generate_run svc prompt u st :
  generate svc prompt u st =
  if all_space u then
    (Ok tt, mkstate (sheet st) (current_view st) (opd_json st)
              (trace st ++ [StWarning "Please enter a prompt"]))
  else
    match svc (chat_request prompt) with
    | c :: _ =>
        (Ok tt, mkstate (sheet st) (current_view st) (opd_json st)
                  (trace st ++ [ChatCreate (chat_request prompt);
                                StTextArea "AI Response" c]))
    | [] =>
        (Raise IndexError,
         mkstate (sheet st) (current_view st) (opd_json st)
           (trace st ++ [ChatCreate (chat_request prompt)]))
    end.
Proof.
  unfold generate. rewrite strip_blank. destruct (all_space u); [reflexivity|].
  unfold bind, emit, lift, first_choice. simpl.
  destruct (svc (chat_request prompt)); simpl; [reflexivity|].
  now rewrite <- app_assoc.
Qed.

Lemma script_after_prompt svc w st prompt st1 :
  before_generate w st = (Ok prompt, st1) ->
  script svc w st = when (btn_generate w) (generate svc prompt (user_prompt w)) st1.
Proof. intros H. unfold script, bind. now rewrite H. Qed.

(** C5.  In a run that reaches the Generate button with the button pressed:
    when the instruction is empty or all whitespace, the run shows the
    warning, completes, and its trace holds no request to the inference
    service; when the instruction has a character that is not whitespace,
    the trace holds the request. *)
Theorem generate_blank_instruction
    (svc : request -> list string) (w : widgets)
    (ws : Sheet.worksheet) (view : string) (prompt : string) (st1 : state) :
  before_generate w (start ws view) = (Ok prompt, st1) ->
  btn_generate w = true ->
  if all_space (user_prompt w)
  then
    script svc w (start ws view)
    = (Ok tt, mkstate (sheet st1) (current_view st1) (opd_json st1)
                (trace st1 ++ [StWarning "Please enter a prompt"])) /\
    chat_calls (trace (snd (script svc w (start ws view)))) = []
  else
    chat_calls (trace (snd (script svc w (start ws view)))) = [chat_request prompt].
Proof.
  intros H Hbtn.
  rewrite (script_after_prompt svc _ _ _ _ H), Hbtn. unfold when.
  rewrite generate_run.
  destruct (before_generate_ok _ _ _ _ H) as (_ & Hq). simpl in Hq.
  destruct (all_space (user_prompt w)).
  - split; [reflexivity|]. simpl. now rewrite chat_calls_snoc, Hq.
  - destruct (svc (chat_request prompt)); simpl.
    + now rewrite chat_calls_snoc, Hq.
    + change (trace st1 ++ [ChatCreate (chat_request prompt); StTextArea "AI Response" s])
        with (trace st1 ++ [ChatCreate (chat_request prompt)] ++ [StTextArea "AI Response" s]).
      now rewrite app_assoc, !chat_calls_snoc, Hq.
Qed.

Lemma generate_blank_instruction_witness :
  before_generate (Sample.asking "   ") (start Sample.three_visits "overview")
  = (Ok (build_opd_prompt (Sheet.get_all_records Sample.three_visits) "   "),
     snd (before_generate (Sample.asking "   ") (start Sample.three_visits "overview"))) /\
  btn_generate (Sample.asking "   ") = true /\
  chat_calls (trace (snd (script Sample.two_choices (Sample.asking "   ")
                            (start Sample.three_visits "overview")))) = [].
Proof.
  assert (H : before_generate (Sample.asking "   ") (start Sample.three_visits "overview")
    = (Ok (build_opd_prompt (Sheet.get_all_records Sample.three_visits) "   "),
       snd (before_generate (Sample.asking "   ") (start Sample.three_visits "overview"))))
    by (vm_compute; reflexivity).
  split; [exact H|]. split; [reflexivity|].
  exact (proj2 (generate_blank_instruction Sample.two_choices (Sample.asking "   ")
                  Sample.three_visits "overview" _ _ H eq_refl)).
Defined.

(** The request built for a concrete run lists the user message first. *)
Lemma request_lists_user_before_system :
  map (fun r => map role (messages r))
    (chat_calls (trace (snd (script Sample.two_choices (Sample.asking "Summarize today")
                               (start Sample.three_visits "overview")))))
  = [["user"; "system"]] /\
  map (fun r => map role (messages r))
    (chat_calls (trace (snd (script Sample.two_choices (Sample.asking "Summarize today")
                               (start Sample.three_visits "overview")))))
  <> [["system"; "user"]].
Proof. vm_compute. split; [reflexivity|discriminate]. Qed.

(** C9, amended.  In a run that reaches the Generate button with the button
    pressed and an instruction that is not blank, exactly one request is sent:
    model "gpt-4o-mini", temperature 0.3, and two messages in the order user
    (the prompt built from [opd_json] and the instruction) then system (the
    fixed text of line 184); the text shown is the content of the first choice
    of the response, and a response without choices stops the run with
    [IndexError] after the request. *)
Theorem generate_sends_one_request
    (svc : request -> list string) (w : widgets)
    (ws : Sheet.worksheet) (view : string) (prompt : string) (st1 : state) :
  before_generate w (start ws view) = (Ok prompt, st1) ->
  btn_generate w = true ->
  all_space (user_prompt w) = false ->
  chat_calls (trace (snd (script svc w (start ws view))))
  = [mkreq "gpt-4o-mini"
       [mkmsg "user" prompt;
        mkmsg "system" "You are assiting ayurvedic doctor for his OPD summary and analysis"]
       (3, 10)] /\
  (exists j, opd_json st1 = Some j /\ prompt = build_opd_prompt j (user_prompt w)) /\
  script svc w (start ws view)
  = match svc (chat_request prompt) with
    | c :: _ =>
        (Ok tt, mkstate (sheet st1) (current_view st1) (opd_json st1)
                  (trace st1 ++ [ChatCreate (chat_request prompt);
                                 StTextArea "AI Response" c]))
    | [] =>
        (Raise IndexError,
         mkstate (sheet st1) (current_view st1) (opd_json st1)
           (trace st1 ++ [ChatCreate (chat_request prompt)]))
    end.
Proof.
  intros H Hbtn Hu.
  pose proof (generate_run svc prompt (user_prompt w) st1) as Hg.
  rewrite Hu in Hg.
  destruct (before_generate_ok _ _ _ _ H) as (Hj & Hq). simpl in Hq.
  rewrite (script_after_prompt svc _ _ _ _ H), Hbtn. unfold when. rewrite Hg.
  split; [|split; [exact Hj | reflexivity]].
  destruct (svc (chat_request prompt)); simpl.
  - now rewrite chat_calls_snoc, Hq.
  - change (trace st1 ++ [ChatCreate (chat_request prompt); StTextArea "AI Response" s])
      with (trace st1 ++ [ChatCreate (chat_request prompt)] ++ [StTextArea "AI Response" s]).
    now rewrite app_assoc, !chat_calls_snoc, Hq.
Qed.

Lemma generate_sends_one_request_witness :
  before_generate (Sample.asking "Summarize today") (start Sample.three_visits "overview")
  = (Ok (build_opd_prompt (Sheet.get_all_records Sample.three_visits) "Summarize today"),
     snd (before_generate (Sample.asking "Summarize today")
            (start Sample.three_visits "overview"))) /\
  btn_generate (Sample.asking "Summarize today") = true /\
  all_space (user_prompt (Sample.asking "Summarize today")) = false /\
  chat_calls (trace (snd (script Sample.two_choices (Sample.asking "Summarize today")
                            (start Sample.three_visits "overview"))))
  = [chat_request
       (build_opd_prompt (Sheet.get_all_records Sample.three_visits) "Summarize today")].
Proof.
  assert (H : before_generate (Sample.asking "Summarize today")
                (start Sample.three_visits "overview")
    = (Ok (build_opd_prompt (Sheet.get_all_records Sample.three_visits) "Summarize today"),
       snd (before_generate (Sample.asking "Summarize today")
              (start Sample.three_visits "overview"))))
    by (vm_compute; reflexivity).
  split; [exact H|]. split; [reflexivity|]. split; [reflexivity|].
  exact (proj1 (generate_sends_one_request Sample.two_choices
                  (Sample.asking "Summarize today")
                  Sample.three_visits "overview" _ _ H eq_refl eq_refl)).
Defined.

Example first_choice_shown :
  trace (snd (generate Sample.two_choices "p" "q" (start Sample.no_rows "overview")))
  = [ChatCreate (chat_request "p"); StTextArea "AI Response" "first"].
Proof. reflexivity. Qed.

(** ** The global [opd_json] *)

Lemma generate_no_name_error svc prompt u st n :
  fst (generate svc prompt u st) <> Raise (NameError n).
Proof.
  rewrite generate_run.
  destruct (all_space u); [discriminate|].
  destruct (svc (chat_request prompt)); discriminate.
Qed.

(** C10.  Every run starts with [opd_json] unbound.  When the view the run
    displays is "entry", line 173 raises [NameError] for [opd_json] and the
    run stops there; when the run displays the overview, no statement of the
    run raises a [NameError]: either the overview stops at a missing column,
    or [opd_json] is bound when line 173 reads it. *)
Theorem opd_json_bound_only_by_overview
    (svc : request -> list string) (ws : Sheet.worksheet) (view : string)
    (w : widgets) :
  if String.eqb (current_view (snd (sidebar w (start ws view)))) "entry"
  then fst (script svc w (start ws view)) = Raise (NameError "opd_json")
  else forall n, fst (script svc w (start ws view)) <> Raise (NameError n).
Proof.
  unfold script, bind. rewrite before_generate_unfold.
  destruct (sidebar_facts w (start ws view)) as (_ & _ & Ho & _).
  set (s1 := snd (sidebar w (start ws view))) in *.
  destruct (String.eqb (current_view s1) "entry").
  - destruct (add_entry_facts w s1) as (Hok & Hj & _).
    destruct (add_entry w s1) as [r2 st2]. simpl in *. subst r2.
    rewrite build_prompt_stmt_unbound by (rewrite Hj, Ho; reflexivity).
    reflexivity.
  - intros n. destruct (overview_facts w s1) as (Hj & _ & _ & _ & He).
    destruct (overview w s1) as [[[]|e] st2]; simpl in *.
    + rewrite (build_prompt_stmt_bound _ _ _ Hj).
      unfold when. destruct (btn_generate w); [|discriminate].
      apply generate_no_name_error.
    + intros [= ->]. exact (He _ eq_refl).
Qed.

Example entry_view_name_error :
  fst (script Sample.two_choices Sample.idle (start Sample.three_visits "entry"))
  = Raise (NameError "opd_json").
Proof. reflexivity. Qed.

Example add_entry_button_name_error :
  fst (script Sample.two_choices
         (mkwidgets false true (mkdate 2024 1 1) "" 0 "Male" "Vata" "" "" "Yes"
                    false false None "" false)
         (start Sample.three_visits "overview"))
  = Raise (NameError "opd_json").
Proof. reflexivity. Qed.

(** ** The prompt *)

Lemma append_assoc (a b c : string) : (a +:+ b) +:+ c = a +:+ b +:+ c.
Proof.
  induction a as [|x a IH]; [reflexivity|].
  change (String x ((a +:+ b) +:+ c) = String x (a +:+ b +:+ c)).
  now rewrite IH.
Qed.

Lemma starts_with_split p s : starts_with p s = true -> exists b, s = p +:+ b.
Proof.
  revert s. induction p as [|c p IH]; intros s H; simpl in *.
  - now exists s.
  - destruct s as [|d s]; [discriminate|].
    apply andb_true_iff in H as [Hc Hp]. apply Ascii.eqb_eq in Hc as ->.
    destruct (IH _ Hp) as [b ->]. now exists b.
Qed.

Lemma occursb_occurs p s : occursb p s = true -> occurs_in p s.
Proof.
  induction s as [|d s IH]; simpl; intros H.
  - rewrite orb_false_r in H. destruct (starts_with_split _ _ H) as [b Hb].
    now exists "", b.
  - apply orb_true_iff in H as [H|H].
    + destruct (starts_with_split _ _ H) as [b Hb]. now exists "", b.
    + destruct (IH H) as (a & b & ->). now exists (String d a), b.
Qed.

Lemma occurs_in_app_l p s t : occurs_in p s -> occurs_in p (s +:+ t).
Proof.
  intros (a & b & ->). exists a, (b +:+ t). now rewrite !append_assoc.
Qed.

Lemma occurs_in_app_r p s t : occurs_in p t -> occurs_in p (s +:+ t).
Proof.
  intros (a & b & ->). exists (s +:+ a), b. now rewrite !append_assoc.
Qed.

Ltac fixed_text := apply occursb_occurs; vm_compute; reflexivity.

Lemma unrepr_char q c rest :
  q = squote \/ q = dquote ->
  unrepr_body q (repr_char q c +:+ rest) = String c (unrepr_body q rest).
Proof.
  intros [->| ->];
    destruct c as [[] [] [] [] [] [] [] []]; reflexivity.
Qed.

Lemma unrepr_body_repr q s :
  q = squote \/ q = dquote ->
  unrepr_body q (repr_body q s +:+ String q "") = s.
Proof.
  intros Hq. induction s as [|c s IH].
  - simpl. cbn. rewrite Ascii.eqb_refl. reflexivity.
  - change (repr_body q (String c s)) with (repr_char q c +:+ repr_body q s).
    rewrite append_assoc, unrepr_char by exact Hq. now rewrite IH.
Qed.

Lemma unrepr_repr_str s : unrepr_str (repr_str s) = s.
Proof.
  unfold repr_str, unrepr_str. apply unrepr_body_repr.
  unfold repr_quote. destruct (_ && _); auto.
Qed.

Lemma unrepr_repr_int n : unrepr_int (repr_int n) = Some n.
Proof.
  unfold unrepr_int, repr_int. rewrite NilZero.isi.
  - simpl. now rewrite DecimalZ.of_to.
  - destruct n; simpl; try discriminate.
    intros [= H]. now apply Unsigned.to_uint_nonnil in H.
  - destruct n; simpl; try discriminate.
    intros [= H]. now apply Unsigned.to_uint_nonnil in H.
Qed.

Lemma contains_char_plain s : plain s = true -> contains_char squote s = false.
Proof.
  induction s as [|c s IH]; simpl; [reflexivity|].
  unfold plain_char. intros H.
  apply andb_true_iff in H as [H Hs]. apply andb_true_iff in H as [H _].
  apply andb_true_iff in H as [_ H]. apply negb_true_iff in H.
  rewrite H. simpl. auto.
Qed.

Lemma repr_char_plain c : plain_char c = true -> repr_char squote c = String c "".
Proof.
  destruct c as [[] [] [] [] [] [] [] []]; intros H; try discriminate H; reflexivity.
Qed.

Lemma repr_body_plain s : plain s = true -> repr_body squote s = s.
Proof.
  induction s as [|c s IH]; simpl; [reflexivity|].
  intros H. apply andb_true_iff in H as [Hc Hs].
  rewrite (repr_char_plain _ Hc), (IH Hs). reflexivity.
Qed.

Lemma repr_str_plain s :
  plain s = true -> repr_str s = String squote (s +:+ String squote "").
Proof.
  intros H. unfold repr_str, repr_quote.
  rewrite (contains_char_plain _ H). simpl. now rewrite (repr_body_plain _ H).
Qed.

Lemma occurs_in_trans a b c : occurs_in a b -> occurs_in b c -> occurs_in a c.
Proof.
  intros (x & y & ->) (x' & y' & ->).
  exists (x' +:+ x), (y +:+ y'). now rewrite !append_assoc.
Qed.

Lemma append_nil_r s : s +:+ "" = s.
Proof.
  induction s as [|c s IH]; [reflexivity|].
  change (String c (s +:+ "") = String c s). now rewrite IH.
Qed.

Lemma occurs_in_join sep l x : x ∈ l -> occurs_in x (join sep l).
Proof.
  induction l as [|y l IH]; intros H; [now apply elem_of_nil in H|].
  apply elem_of_cons in H as [->|H].
  - destruct l as [|z l].
    { exists "", "". change (y = y +:+ ""). now rewrite append_nil_r. }
    change (join sep (y :: z :: l)) with (y +:+ sep +:+ join sep (z :: l)).
    now exists "", (sep +:+ join sep (z :: l)).
  - destruct l as [|z l]; [now apply elem_of_nil in H|].
    change (join sep (y :: z :: l)) with (y +:+ sep +:+ join sep (z :: l)).
    do 2 apply occurs_in_app_r. now apply IH.
Qed.

(** Each field of each record occurs in the [repr] of the record set. *)
Lemma field_in_repr_records (j : list dict) (r : dict) (kv : string * pyval) :
  r ∈ j -> kv ∈ r ->
  occurs_in (repr_str (fst kv) +:+ ": " +:+ repr (snd kv)) (repr_records j).
Proof.
  intros Hr Hkv.
  apply occurs_in_trans with (repr_dict r).
  - unfold repr_dict. apply occurs_in_app_r, occurs_in_app_l.
    apply occurs_in_join. apply list_elem_of_fmap. now exists kv.
  - unfold repr_records. apply occurs_in_app_r, occurs_in_app_l.
    apply occurs_in_join. apply list_elem_of_fmap. now exists r.
Qed.

Lemma occurs_in_prompt_data p j u :
  occurs_in p (repr_records j) -> occurs_in p (build_opd_prompt j u).
Proof.
  intros H. unfold build_opd_prompt. now apply occurs_in_app_r, occurs_in_app_l.
Qed.

Lemma field_text_repr kv :
  plain_field kv = true ->
  repr_str (fst kv) +:+ ": " +:+ repr (snd kv) = field_text kv.
Proof.
  destruct kv as [k v]. unfold plain_field, field_text. simpl.
  intros H. apply andb_true_iff in H as [Hk Hv].
  rewrite (repr_str_plain _ Hk).
  destruct v as [s|n|d|]; try discriminate.
  - simpl. rewrite (repr_str_plain _ Hv).
    change (String squote ((k +:+ String squote "")
                           +:+ ": " +:+ String squote (s +:+ String squote ""))
            = "'" +:+ k +:+ "': '" +:+ s +:+ "'").
    rewrite append_assoc. reflexivity.
  - simpl.
    change (String squote ((k +:+ String squote "") +:+ ": " +:+ repr_int n)
            = "'" +:+ k +:+ "': " +:+ NilZero.string_of_int (Z.to_int n)).
    rewrite append_assoc. reflexivity.
Qed.

(** C6.  For every record set, the empty one included, and every
    instruction: the prompt holds the role line, the five rules and the seven
    numbered task lines verbatim, and the instruction right after the first
    task line; between "OPD DATA:" and the tasks it holds the [repr] of the
    record set, in which every field of every record occurs as
    [key: value], written as ['key': 'value'] or ['key': number] when key
    and value are plain; a string and a number are read back from their
    literals unchanged, so no content is lost; and the record set bound to
    [opd_json] by the overview is the whole frame of the store's records,
    whatever the date filter is set to. *)
Theorem build_opd_prompt_contents (j : list dict) (u : string) :
  Forall (fun p => occurs_in p (build_opd_prompt j u)) (role_line :: rules ++ tasks) /\
  occurs_in ("1. Give a short OPD summary + " +:+ u) (build_opd_prompt j u) /\
  occurs_in ("OPD DATA:" +:+ nl +:+ repr_records j +:+ nl) (build_opd_prompt j u) /\
  Forall (fun r =>
    Forall (fun kv =>
      occurs_in (repr_str (fst kv) +:+ ": " +:+ repr (snd kv)) (build_opd_prompt j u) /\
      (plain_field kv = false \/ occurs_in (field_text kv) (build_opd_prompt j u))) r) j /\
  (forall s, unrepr_str (repr_str s) = s) /\
  (forall n, unrepr_int (repr (PInt n)) = Some n) /\
  (forall w st,
      opd_json (snd (overview w st))
      = Some (to_dict (from_records (Sheet.get_all_records (sheet st))))).
Proof.
  assert (Hhead : forall p, occurs_in p prompt_head -> occurs_in p (build_opd_prompt j u))
    by (intros p H; now apply occurs_in_app_l).
  assert (Htail : forall p, occurs_in p prompt_tail -> occurs_in p (build_opd_prompt j u))
    by (intros p H; unfold build_opd_prompt; now do 4 apply occurs_in_app_r).
  assert (Htask : forall p, occurs_in p prompt_task -> occurs_in p (build_opd_prompt j u))
    by (intros p H; unfold build_opd_prompt;
        do 2 apply occurs_in_app_r; now apply occurs_in_app_l).
  split; [|split; [|split; [|split; [|split; [|split]]]]].
  - unfold rules, tasks. simpl.
    repeat (apply Forall_cons; split);
      [ apply Hhead; fixed_text | apply Hhead; fixed_text | apply Hhead; fixed_text
      | apply Hhead; fixed_text | apply Hhead; fixed_text | apply Hhead; fixed_text
      | apply Htask; fixed_text
      | apply Htail; fixed_text | apply Htail; fixed_text | apply Htail; fixed_text
      | apply Htail; fixed_text | apply Htail; fixed_text | apply Htail; fixed_text
      | apply Forall_nil_2 ].
  - exists (prompt_head +:+ repr_records j +:+ nl +:+ nl +:+ "TASK:" +:+ nl), prompt_tail.
    unfold build_opd_prompt, prompt_task. now rewrite !append_assoc.
  - exists (nl +:+ "You are assisting an Ayurvedic doctor." +:+ nl
            +:+ nl
            +:+ "STRICT RULES:" +:+ nl
            +:+ "- Do NOT diagnose" +:+ nl
            +:+ "- Do NOT suggest medicines" +:+ nl
            +:+ "- Do NOT change treatment" +:+ nl
            +:+ "- Only summarize and observe patterns" +:+ nl
            +:+ "- Use simple, non-alarming language" +:+ nl
            +:+ nl),
           (nl +:+ "TASK:" +:+ nl +:+ "1. Give a short OPD summary + " +:+ u +:+ prompt_tail).
    unfold build_opd_prompt, prompt_head, prompt_task. now rewrite !append_assoc.
  - apply Forall_forall. intros r Hr. apply Forall_forall. intros kv Hkv.
    assert (H : occurs_in (repr_str (fst kv) +:+ ": " +:+ repr (snd kv))
                  (build_opd_prompt j u))
      by (apply occurs_in_prompt_data; now apply (field_in_repr_records j r kv)).
    split; [exact H|].
    destruct (plain_field kv) eqn:Hp; [right | now left].
    now rewrite <- (field_text_repr kv Hp).
  - apply unrepr_repr_str.
  - apply unrepr_repr_int.
  - intros w st. apply overview_facts.
Qed.

Example prompt_shows_fields :
  occursb "'Diagnosis': 'Fever'"
    (build_opd_prompt (Sheet.get_all_records Sample.three_visits) "hello") = true /\
  occursb "'Name': 'Meera', 'Age': 8, 'Gender': 'Female'"
    (build_opd_prompt (Sheet.get_all_records Sample.three_visits) "hello") = true.
Proof. vm_compute. split; reflexivity. Qed.

Example unrepr_ex :
  repr_str (String (ascii_of_N 9) "it's \ so") = String dquote
    (String backslash ("tit's " +:+ String backslash (String backslash (" so" +:+ String dquote "")))) /\
  unrepr_str (repr_str (String (ascii_of_N 9) "it's \ so")) = String (ascii_of_N 9) "it's \ so".
Proof. split; reflexivity. Qed.

Example prompt_of_empty_store :
  occursb ("OPD DATA:" +:+ nl +:+ "[]" +:+ nl) (build_opd_prompt [] "hello") = true.
Proof. vm_compute. reflexivity. Qed.

Example opd_json_ignores_filter :
  opd_json (snd (overview (Sample.filtering (mkdate 2024 1 2))
                   (start Sample.three_visits "overview")))
  = Some (Sheet.get_all_records Sample.three_visits).
Proof. vm_compute. reflexivity. Qed.

(** ** Round trip through the store *)

Lemma get_all_records_append row ws :
  Sheet.get_all_records (Sheet.append_row row ws)
  = Sheet.get_all_records ws ++ [Sheet.record_of (Sheet.header ws) row].
Proof. unfold Sheet.get_all_records, Sheet.append_row. simpl. now rewrite map_app. Qed.

(** C8.  Let the store have the schema's header.  Saving the entry form
    appends one row, the eight values in schema order with the date as
    [str(opd_date)], after the rows already there; the next overview reads
    all records back and the last one maps the eight column names, in schema
    order, to the values submitted. *)
Theorem append_then_fetch_round_trip
    (w w' : widgets) (ws : Sheet.worksheet) (view : string) :
  Sheet.header ws = Sheet.schema ->
  submitted w = true ->
  Sheet.data (sheet (snd (add_entry w (start ws view))))
  = Sheet.data ws ++
      [[PStr (str_date (opd_date w)); PStr (patient_name w); PInt (age w);
        PStr (gender w); PStr (prakriti w); PStr (complaint w);
        PStr (diagnosis w); PStr (follow_up w)]] /\
  opd_json (snd (overview w' (start (sheet (snd (add_entry w (start ws view)))) "overview")))
  = Some (Sheet.get_all_records ws ++
            [[("Date", PStr (str_date (opd_date w)));
              ("Name", PStr (patient_name w));
              ("Age", PInt (age w));
              ("Gender", PStr (gender w));
              ("Prakriti", PStr (prakriti w));
              ("Complaint", PStr (complaint w));
              ("Diagnosis", PStr (diagnosis w));
              ("FollowUp", PStr (follow_up w))]]).
Proof.
  intros Hh Hs.
  destruct (add_entry_facts w (start ws view)) as (_ & _ & _ & Hsheet).
  rewrite Hs in Hsheet. simpl in Hsheet. rewrite Hsheet.
  split; [reflexivity|].
  destruct (overview_facts w' (start (Sheet.append_row (entry_row w) ws) "overview"))
    as (Hj & _).
  rewrite Hj. simpl sheet.
  rewrite from_records_sheet by (simpl; rewrite Hh; apply schema_nodup).
  unfold to_dict. cbn [rows].
  rewrite get_all_records_append, Hh. reflexivity.
Qed.

Lemma append_then_fetch_round_trip_witness :
  Sheet.header Sample.three_visits = Sheet.schema /\
  submitted (Sample.saving (mkdate 2024 1 3) "Kiran" 45 "Other" "Vata-Kapha"
               "Headache" "" "No") = true /\
  last (Sheet.get_all_records
          (sheet (snd (add_entry
                         (Sample.saving (mkdate 2024 1 3) "Kiran" 45 "Other" "Vata-Kapha"
                            "Headache" "" "No")
                         (start Sample.three_visits "entry")))))
  = Some [("Date", PStr "2024-01-03"); ("Name", PStr "Kiran"); ("Age", PInt 45);
          ("Gender", PStr "Other"); ("Prakriti", PStr "Vata-Kapha");
          ("Complaint", PStr "Headache"); ("Diagnosis", PStr "");
          ("FollowUp", PStr "No")] /\
  opd_json (snd (overview Sample.idle
                   (start (sheet (snd (add_entry
                                         (Sample.saving (mkdate 2024 1 3) "Kiran" 45 "Other"
                                            "Vata-Kapha" "Headache" "" "No")
                                         (start Sample.three_visits "entry"))))
                      "overview")))
  = Some (Sheet.get_all_records Sample.three_visits ++
            [[("Date", PStr "2024-01-03"); ("Name", PStr "Kiran"); ("Age", PInt 45);
              ("Gender", PStr "Other"); ("Prakriti", PStr "Vata-Kapha");
              ("Complaint", PStr "Headache"); ("Diagnosis", PStr "");
              ("FollowUp", PStr "No")]]).
Proof.
  split; [reflexivity|]. split; [reflexivity|]. split; [reflexivity|].
  exact (proj2 (append_then_fetch_round_trip
                  (Sample.saving (mkdate 2024 1 3) "Kiran" 45 "Other" "Vata-Kapha"
                     "Headache" "" "No")
                  Sample.idle Sample.three_visits "entry" eq_refl eq_refl)).
Defined.

(** * Further properties of the script *)

(** ** What a run does to the store and to the session *)

Lemma sheet_calls_snoc t e :
  sheet_calls (t ++ [e]) = sheet_calls t ++ (if is_sheet_call e then [e] else []).
Proof.
  unfold sheet_calls. rewrite List.filter_app. simpl.
  destruct (is_sheet_call e); reflexivity.
Qed.

Lemma sidebar_view w st :
  current_view (snd (sidebar w st)) = displayed_view (current_view st) w.
Proof.
  unfold displayed_view. run.
  destruct (btn_overview w), (btn_add_entry w); reflexivity.
Qed.

Lemma add_entry_view_calls w st :
  current_view (snd (add_entry w st))
    = (if submitted w || cancel w then "overview" else current_view st) /\
  sheet_calls (trace (snd (add_entry w st)))
    = sheet_calls (trace st) ++ (if submitted w then [SheetAppend (entry_row w)] else []).
Proof.
  run. destruct (submitted w), (cancel w); simpl;
    rewrite ?sheet_calls_snoc, ?app_nil_r; simpl; rewrite ?app_nil_r; auto.
Qed.

Lemma overview_sheet_calls w st :
  sheet_calls (trace (snd (overview w st))) = sheet_calls (trace st) ++ [SheetRead].
Proof.
  run.
  destruct (empty (from_records (Sheet.get_all_records (sheet st)))); simpl.
  { rewrite !sheet_calls_snoc. simpl. now rewrite app_nil_r. }
  split_results; rewrite !sheet_calls_snoc; simpl; now rewrite ?app_nil_r.
Qed.

Lemma build_prompt_stmt_state u st : snd (build_prompt_stmt u st) = st.
Proof.
  destruct (opd_json st) as [j|] eqn:E.
  - now rewrite (build_prompt_stmt_bound _ _ _ E).
  - now rewrite (build_prompt_stmt_unbound _ _ E).
Qed.

Lemma generate_state svc prompt u st :
  sheet (snd (generate svc prompt u st)) = sheet st /\
  current_view (snd (generate svc prompt u st)) = current_view st /\
  sheet_calls (trace (snd (generate svc prompt u st))) = sheet_calls (trace st).
Proof.
  rewrite generate_run. destruct (all_space u); simpl.
  - rewrite sheet_calls_snoc. simpl. now rewrite app_nil_r.
  - destruct (svc (chat_request prompt)); simpl.
    + rewrite sheet_calls_snoc. simpl. now rewrite app_nil_r.
    + unfold sheet_calls. rewrite List.filter_app. simpl. now rewrite app_nil_r.
Qed.

(** After line 130 nothing touches the worksheet, the view or adds a call to
    the worksheet. *)
Lemma script_state svc w st :
  let s2 := snd ((if String.eqb (current_view (snd (sidebar w st))) "entry"
                  then add_entry w else overview w) (snd (sidebar w st))) in
  sheet (snd (script svc w st)) = sheet s2 /\
  current_view (snd (script svc w st)) = current_view s2 /\
  sheet_calls (trace (snd (script svc w st))) = sheet_calls (trace s2).
Proof.
  unfold script, bind. rewrite before_generate_unfold.
  destruct ((if String.eqb (current_view (snd (sidebar w st))) "entry"
             then add_entry w else overview w) (snd (sidebar w st)))
    as [[[]|e] s2]; simpl; [|auto].
  pose proof (build_prompt_stmt_state (user_prompt w) s2) as Hs.
  destruct (build_prompt_stmt (user_prompt w) s2) as [[p|e] s3]; simpl in *;
    subst s3; [|auto].
  unfold when. destruct (btn_generate w); [apply generate_state | auto].
Qed.

(** X1.  A run changes the worksheet only when it displays the entry form
    and Save Entry is pressed, and then it appends the row of the form after
    the rows already there; a run of the overview, with or without Generate
    Response, leaves the worksheet as it was. *)
Theorem script_store
    (svc : request -> list string) (ws : Sheet.worksheet) (view : string)
    (w : widgets) :
  sheet (snd (script svc w (start ws view)))
  = if String.eqb (displayed_view view w) "entry" && submitted w
    then Sheet.mksheet (Sheet.header ws) (Sheet.data ws ++ [entry_row w])
    else ws.
Proof.
  destruct (script_state svc w (start ws view)) as (-> & _).
  rewrite sidebar_view. change (current_view (start ws view)) with view.
  destruct (sidebar_facts w (start ws view)) as (_ & Hs & _).
  destruct (String.eqb (displayed_view view w) "entry").
  - destruct (add_entry_facts w (snd (sidebar w (start ws view)))) as (_ & _ & _ & ->).
    rewrite Hs. simpl. destruct (submitted w); reflexivity.
  - destruct (overview_facts w (snd (sidebar w (start ws view)))) as (_ & -> & _).
    exact Hs.
Qed.

(** X2.  The calls a run makes to the worksheet: a run that displays the
    entry form makes one [append_row] when Save Entry is pressed and none
    otherwise, and never reads; a run that displays the overview reads all
    records exactly once and never appends. *)
Theorem script_sheet_calls
    (svc : request -> list string) (ws : Sheet.worksheet) (view : string)
    (w : widgets) :
  sheet_calls (trace (snd (script svc w (start ws view))))
  = if String.eqb (displayed_view view w) "entry"
    then (if submitted w then [SheetAppend (entry_row w)] else [])
    else [SheetRead].
Proof.
  destruct (script_state svc w (start ws view)) as (_ & _ & ->).
  rewrite sidebar_view. change (current_view (start ws view)) with view.
  destruct (sidebar_facts w (start ws view)) as (_ & _ & _ & Ht).
  destruct (String.eqb (displayed_view view w) "entry").
  - destruct (add_entry_view_calls w (snd (sidebar w (start ws view)))) as (_ & ->).
    now rewrite Ht.
  - rewrite overview_sheet_calls. now rewrite Ht.
Qed.

(** X3.  The view the session holds after a run: the sidebar buttons choose
    the view to display (Add OPD Entry wins over OPD Overview, no button keeps
    the session's view); a displayed entry form sends the session back to
    "overview" when Save Entry or Cancel is pressed and keeps "entry"
    otherwise; a displayed overview keeps the view. *)
Theorem script_next_view
    (svc : request -> list string) (ws : Sheet.worksheet) (view : string)
    (w : widgets) :
  current_view (snd (script svc w (start ws view)))
  = if String.eqb (displayed_view view w) "entry"
    then (if submitted w || cancel w then "overview" else "entry")
    else displayed_view view w.
Proof.
  destruct (script_state svc w (start ws view)) as (_ & -> & _).
  pose proof (sidebar_view w (start ws view)) as Hv.
  change (current_view (start ws view)) with view in Hv.
  rewrite Hv.
  destruct (String.eqb (displayed_view view w) "entry") eqn:E.
  - destruct (add_entry_view_calls w (snd (sidebar w (start ws view)))) as (-> & _).
    rewrite Hv. apply String.eqb_eq in E. now rewrite E.
  - destruct (overview_facts w (snd (sidebar w (start ws view)))) as (_ & _ & -> & _).
    exact Hv.
Qed.

(** ** The date filter on a store *)

Lemma date_cell_record_of row :
  date_cell (Sheet.record_of Sheet.schema row) = hd (PStr "") row.
Proof. reflexivity. Qed.

(** X4.  On a store with the schema's header whose [Date] cells are strings
    or numbers (anything but a [datetime.date]), choosing any date in the
    filter keeps no row: the comparison of line 107 is false for every row. *)
Theorem date_filter_keeps_no_sheet_row (ws : Sheet.worksheet) (d : date) :
  Sheet.header ws = Sheet.schema ->
  Sheet.data ws <> [] ->
  (forall row e, row ∈ Sheet.data ws -> hd (PStr "") row <> PDate e) ->
  filter_by_date (from_records (Sheet.get_all_records ws)) (Some d)
  = Ok (mkframe Sheet.schema []).
Proof.
  intros Hh Hne Hcells.
  rewrite from_records_sheet by (rewrite Hh; apply schema_nodup).
  destruct (Sheet.data ws) as [|row0 data] eqn:E; [congruence|].
  rewrite Hh.
  rewrite filter_by_date_sheet_cells; [reflexivity | compute_done |].
  intros r e Hr. cbn [rows] in Hr. unfold Sheet.get_all_records in Hr.
  rewrite Hh, E in Hr. apply list_elem_of_fmap in Hr as (row & -> & Hrow).
  rewrite date_cell_record_of. now apply Hcells.
Qed.

Lemma date_filter_keeps_no_sheet_row_witness :
  Sheet.header Sample.three_visits = Sheet.schema /\
  Sheet.data Sample.three_visits <> [] /\
  (forall row e, row ∈ Sheet.data Sample.three_visits -> hd (PStr "") row <> PDate e) /\
  filter_by_date (from_records (Sheet.get_all_records Sample.three_visits))
    (Some (mkdate 2024 1 2))
  = Ok (mkframe Sheet.schema []).
Proof.
  assert (H : forall row e,
             row ∈ Sheet.data Sample.three_visits -> hd (PStr "") row <> PDate e).
  { intros row e Hrow. apply list_elem_of_In in Hrow. simpl in Hrow.
    destruct Hrow as [<-|[<-|[<-|[]]]]; discriminate. }
  split; [reflexivity|]. split; [discriminate|]. split; [exact H|].
  exact (date_filter_keeps_no_sheet_row Sample.three_visits (mkdate 2024 1 2)
           eq_refl ltac:(discriminate) H).
Defined.

(** ** Missing columns *)

Lemma getitem_missing df c :
  c ∉ columns df -> getitem df c = Raise (KeyError (PStr c)).
Proof. intros H. unfold getitem. now rewrite bool_decide_eq_false_2. Qed.

(** X5.  With a date chosen and no [Date] column in a frame that has rows,
    the overview stops with [KeyError] for "Date" before it draws
    anything. *)
Theorem show_overview_without_date_column
    (w : widgets) (df : DataFrame) (st : state) (d : date) :
  empty df = false ->
  selected_date w = Some d ->
  "Date" ∉ columns df ->
  show_overview w df st = (Raise (KeyError (PStr "Date")), st).
Proof.
  intros He Hsel Hcol. unfold show_overview. rewrite He.
  unfold bind at 1, lift at 1, filter_by_date. rewrite Hsel.
  now rewrite (getitem_missing _ _ Hcol).
Qed.

Lemma show_overview_without_date_column_witness :
  empty Sample.no_date_column = false /\
  selected_date (Sample.filtering (mkdate 2024 1 1)) = Some (mkdate 2024 1 1) /\
  ("Date" ∉ columns Sample.no_date_column) /\
  show_overview (Sample.filtering (mkdate 2024 1 1)) Sample.no_date_column
    (start Sample.no_rows "overview")
  = (Raise (KeyError (PStr "Date")), start Sample.no_rows "overview").
Proof.
  assert (H : "Date" ∉ columns Sample.no_date_column) by compute_done.
  split; [reflexivity|]. split; [reflexivity|]. split; [exact H|].
  exact (show_overview_without_date_column (Sample.filtering (mkdate 2024 1 1))
           Sample.no_date_column (start Sample.no_rows "overview") (mkdate 2024 1 1)
           eq_refl eq_refl H).
Defined.

(** X6.  With no date chosen and no [FollowUp] column in a frame that has
    rows, the overview draws the total and then stops with [KeyError] for
    "FollowUp": no other metric, chart or table is drawn. *)
Theorem show_overview_without_followup_column
    (w : widgets) (df : DataFrame) (st : state) :
  empty df = false ->
  selected_date w = None ->
  "FollowUp" ∉ columns df ->
  show_overview w df st
  = (Raise (KeyError (PStr "FollowUp")),
     mkstate (sheet st) (current_view st) (opd_json st)
       (trace st ++ [StMetric "Total Patients" (PInt (len df))])).
Proof.
  intros He Hsel Hcol. unfold show_overview. rewrite He.
  unfold bind, lift, filter_by_date, follow_ups, emit. rewrite Hsel.
  now rewrite (getitem_missing _ _ Hcol).
Qed.

Lemma show_overview_without_followup_column_witness :
  empty Sample.no_followup_column = false /\
  selected_date Sample.idle = None /\
  ("FollowUp" ∉ columns Sample.no_followup_column) /\
  show_overview Sample.idle Sample.no_followup_column (start Sample.no_rows "overview")
  = (Raise (KeyError (PStr "FollowUp")),
     mkstate Sample.no_rows "overview" None [StMetric "Total Patients" (PInt 1)]).
Proof.
  assert (H : "FollowUp" ∉ columns Sample.no_followup_column) by compute_done.
  split; [reflexivity|]. split; [reflexivity|]. split; [exact H|].
  exact (show_overview_without_followup_column Sample.idle Sample.no_followup_column
           (start Sample.no_rows "overview") eq_refl eq_refl H).
Defined.

(** ** The charts and the most frequent value *)

Lemma occurrences_cons x v col :
  occurrences v (x :: col)
  = if decide (x = v) then S (occurrences v col) else occurrences v col.
Proof. unfold occurrences. rewrite filter_cons. now case_decide. Qed.

Lemma occurrences_notin v col : v ∉ col -> occurrences v col = 0%nat.
Proof.
  induction col as [|x col IH]; intros H; [reflexivity|].
  rewrite occurrences_cons. apply not_elem_of_cons in H as [Hne Hin].
  rewrite decide_False by congruence. now apply IH.
Qed.

Lemma occurrences_in v col : v ∈ col -> (1 <= occurrences v col)%nat.
Proof.
  induction col as [|x col IH]; intros H; [now apply elem_of_nil in H|].
  rewrite occurrences_cons. case_decide; [lia|].
  apply elem_of_cons in H as [->|H]; [congruence | now apply IH].
Qed.

Lemma value_counts_dom col v :
  is_Some (value_counts col !! v) <-> notna v = true /\ v ∈ col.
Proof.
  induction col as [|x col IH]; simpl.
  - rewrite lookup_empty. split; [intros [? [=]] | intros [_ H]; now apply elem_of_nil in H].
  - unfold count_in. rewrite elem_of_cons. destruct (notna x) eqn:Hx.
    + rewrite lookup_insert_is_Some, IH. split.
      * intros [<-|(Hne & Hv & Hin)]; auto.
      * intros (Hv & [->|Hin]); [now left|].
        destruct (decide (x = v)) as [->|Hne]; [now left | right; auto].
    + rewrite IH. split; [intros (Hv & Hin); auto|].
      intros (Hv & [->|Hin]); [congruence | auto].
Qed.

(** X7.  The frequency table behind each chart: for a frame with the
    column, the table has an entry for a value exactly when the value occurs
    in the column and is not the missing value, and the entry is the number
    of rows holding that value. *)
Theorem counts_chart (df : DataFrame) (c : string) :
  c ∈ columns df ->
  exists m,
    counts df c = Ok m /\
    forall v n,
      m !! v = Some n <->
      v <> PNaN /\
      v ∈ map (fun r => default PNaN (dict_get c r)) (rows df) /\
      n = occurrences v (map (fun r => default PNaN (dict_get c r)) (rows df)).
Proof.
  intros Hc. unfold counts. rewrite (getitem_ok _ _ Hc).
  eexists. split; [reflexivity|]. intros v n.
  set (col := map (fun r => default PNaN (dict_get c r)) (rows df)).
  pose proof (value_counts_dom col v) as Hdom.
  split.
  - intros Hm.
    destruct (proj1 Hdom (ex_intro _ n Hm)) as (Hv & Hin).
    split; [intros ->; discriminate|]. split; [exact Hin|].
    rewrite <- (value_counts_get col v Hv). unfold get. now rewrite Hm.
  - intros (Hv & Hin & ->).
    assert (Hna : notna v = true) by (destruct v; simpl; congruence).
    destruct (proj2 Hdom (conj Hna Hin)) as (k & Hk).
    rewrite Hk. f_equal.
    rewrite <- (value_counts_get col v Hna). unfold get. now rewrite Hk.
Qed.

Lemma counts_chart_witness :
  ("Diagnosis" ∈ columns (from_records (Sheet.get_all_records Sample.three_visits))) /\
  exists m,
    counts (from_records (Sheet.get_all_records Sample.three_visits)) "Diagnosis" = Ok m /\
    forall v n,
      m !! v = Some n <->
      v <> PNaN /\
      v ∈ map (fun r => default PNaN (dict_get "Diagnosis" r))
            (rows (from_records (Sheet.get_all_records Sample.three_visits))) /\
      n = occurrences v
            (map (fun r => default PNaN (dict_get "Diagnosis" r))
               (rows (from_records (Sheet.get_all_records Sample.three_visits)))).
Proof.
  assert (H : "Diagnosis" ∈ columns (from_records (Sheet.get_all_records Sample.three_visits)))
    by compute_done.
  split; [exact H|].
  exact (counts_chart (from_records (Sheet.get_all_records Sample.three_visits))
           "Diagnosis" H).
Defined.


Lemma max_count_upper vals l x :
  x ∈ l ->
  (occurrences x vals <= foldr (fun v m => Nat.max (occurrences v vals) m) 0%nat l)%nat.
Proof.
  induction l as [|y l IH]; intros H; [now apply elem_of_nil in H|].
  simpl. apply elem_of_cons in H as [->|H]; [lia|].
  specialize (IH H). lia.
Qed.

Lemma max_count_attained vals l :
  l <> [] ->
  exists x, x ∈ l /\
    occurrences x vals = foldr (fun v m => Nat.max (occurrences v vals) m) 0%nat l.
Proof.
  induction l as [|y l IH]; intros H; [congruence|].
  simpl. destruct l as [|z l].
  - exists y. split; [left|]. simpl. lia.
  - destruct IH as (x & Hx & Hm); [discriminate|].
    destruct (Nat.max_spec (occurrences y vals)
                (foldr (fun v m => Nat.max (occurrences v vals) m) 0%nat (z :: l)))
      as [[_ ->]|[_ ->]].
    + exists x. split; [now right | exact Hm].
    + exists y. split; [left | reflexivity].
Qed.

Lemma elem_of_distinct x col : x ∈ distinct col <-> x ∈ col.
Proof.
  induction col as [|v col IH]; simpl; [reflexivity|].
  rewrite !elem_of_cons, list_elem_of_filter, IH.
  destruct (decide (x = v)); tauto.
Qed.

Lemma elem_of_insert_sorted x v l : x ∈ insert_sorted v l <-> x = v \/ x ∈ l.
Proof.
  induction l as [|y l IH]; simpl.
  - now rewrite elem_of_cons.
  - destruct (py_leb v y); rewrite !elem_of_cons; [reflexivity|].
    rewrite IH. tauto.
Qed.

Lemma elem_of_sort_modes x l : x ∈ sort_modes l <-> x ∈ l.
Proof.
  unfold sort_modes.
  induction l as [|y l IH]; simpl; [reflexivity|].
  now rewrite elem_of_insert_sorted, IH, elem_of_cons.
Qed.

Lemma elem_of_bool_filter {A} (f : A -> bool) (l : list A) x :
  x ∈ List.filter f l <-> x ∈ l /\ f x = true.
Proof. rewrite !list_elem_of_In. apply filter_In. Qed.

(** The modes are the values that are not missing and occur most often. *)
Lemma elem_of_mode v col :
  v ∈ mode col <->
  v ∈ List.filter notna col /\
  occurrences v (List.filter notna col) = max_count (List.filter notna col).
Proof.
  unfold mode. rewrite elem_of_sort_modes, elem_of_bool_filter, elem_of_distinct.
  now rewrite Nat.eqb_eq.
Qed.

Lemma occurrences_notna x col :
  notna x = true -> occurrences x (List.filter notna col) = occurrences x col.
Proof.
  intros Hx. induction col as [|y col IH]; simpl; [reflexivity|].
  rewrite occurrences_cons. destruct (notna y) eqn:Hy.
  - rewrite occurrences_cons. now rewrite IH.
  - rewrite decide_False by (intros ->; congruence). exact IH.
Qed.

Lemma mode_nonempty col x : x ∈ col -> notna x = true -> mode col <> [].
Proof.
  intros Hin Hx.
  assert (Hne : List.filter notna col <> []).
  { intros E. assert (H : x ∈ List.filter notna col) by now apply elem_of_bool_filter.
    rewrite E in H. now apply elem_of_nil in H. }
  destruct (max_count_attained (List.filter notna col) _ Hne) as (y & Hy & Hm).
  intros E. assert (H : y ∈ mode col) by (apply elem_of_mode; auto).
  rewrite E in H. now apply elem_of_nil in H.
Qed.

(** X8.  The value shown as "Top Diagnosis" or "Dominant Prakriti" for a
    frame that has rows: it occurs in the column, it is not the missing value,
    and no other value that is not missing occurs in more rows. *)
Theorem top_most_frequent (df : DataFrame) (c : string) (v : pyval) :
  empty df = false ->
  top df c = Ok v ->
  v ∈ map (fun r => default PNaN (dict_get c r)) (rows df) /\
  v <> PNaN /\
  forall x, x <> PNaN ->
    (occurrences x (map (fun r => default PNaN (dict_get c r)) (rows df))
     <= occurrences v (map (fun r => default PNaN (dict_get c r)) (rows df)))%nat.
Proof.
  intros He. unfold top, getitem. rewrite He. simpl.
  case_bool_decide; [|discriminate].
  set (col := map (fun r => default PNaN (dict_get c r)) (rows df)).
  intros Hf.
  assert (Hv : v ∈ mode col).
  { unfold first in Hf. destruct (mode col) as [|y l]; [discriminate|].
    injection Hf as ->. left. }
  apply elem_of_mode in Hv as (Hin & Hmax).
  apply elem_of_bool_filter in Hin as (Hin & Hna).
  split; [exact Hin|]. split; [intros ->; discriminate|].
  intros x Hx.
  assert (Hxna : notna x = true) by (destruct x; simpl; congruence).
  rewrite <- (occurrences_notna x col Hxna), <- (occurrences_notna v col Hna), Hmax.
  destruct (decide (x ∈ List.filter notna col)) as [Hxin|Hxin].
  - now apply max_count_upper.
  - rewrite (occurrences_notin _ _ Hxin). lia.
Qed.

Lemma top_most_frequent_witness :
  empty (from_records (Sheet.get_all_records Sample.three_visits)) = false /\
  top (from_records (Sheet.get_all_records Sample.three_visits)) "Diagnosis"
  = Ok (PStr "Cold") /\
  PStr "Cold" <> PNaN /\
  (occurrences (PStr "Fever")
     (map (fun r => default PNaN (dict_get "Diagnosis" r))
        (rows (from_records (Sheet.get_all_records Sample.three_visits))))
   <= occurrences (PStr "Cold")
        (map (fun r => default PNaN (dict_get "Diagnosis" r))
           (rows (from_records (Sheet.get_all_records Sample.three_visits)))))%nat.
Proof.
  assert (He : empty (from_records (Sheet.get_all_records Sample.three_visits)) = false)
    by (vm_compute; reflexivity).
  assert (Ht : top (from_records (Sheet.get_all_records Sample.three_visits)) "Diagnosis"
               = Ok (PStr "Cold")) by (vm_compute; reflexivity).
  destruct (top_most_frequent _ _ _ He Ht) as (_ & Hn & Hmost).
  split; [exact He|]. split; [exact Ht|]. split; [exact Hn|].
  apply Hmost. discriminate.
Defined.

(** ** Overviews that complete *)

Lemma top_ok df c :
  c ∈ columns df ->
  (forall r, r ∈ rows df -> notna (default PNaN (dict_get c r)) = true) ->
  exists v, top df c = Ok v.
Proof.
  intros Hc Hcells. unfold top. destruct (empty df) eqn:He; simpl; [eauto|].
  rewrite (getitem_ok _ _ Hc).
  destruct (rows df) as [|r l] eqn:Er.
  { unfold empty in He. rewrite Er in He. destruct (columns df); discriminate. }
  destruct (mode (map (fun r => default PNaN (dict_get c r)) (r :: l))) as [|v m] eqn:Em.
  - exfalso. refine (mode_nonempty _ (default PNaN (dict_get c r)) _ _ Em).
    + simpl. left.
    + apply Hcells. left.
  - simpl. eauto.
Qed.

Lemma filter_by_date_rows df sel df' r :
  filter_by_date df sel = Ok df' -> r ∈ rows df' -> r ∈ rows df.
Proof.
  unfold filter_by_date. destruct sel as [d|]; [|now intros [= <-]].
  unfold getitem. case_bool_decide; [|discriminate]. intros [= <-]. simpl.
  unfold eq_scalar. rewrite map_map, select_map, elem_of_bool_filter. tauto.
Qed.

(** X9.  For a frame that has the [FollowUp], [Diagnosis] and [Prakriti]
    columns (and the [Date] column when a date is chosen), with no missing
    value in the diagnosis and prakriti cells, every lookup of the overview
    succeeds, whatever the rows and whatever the chosen date: the date
    filter, the follow-up count, both most frequent values and both frequency
    tables; so the overview raises no [KeyError].  (What the widgets do with
    the values they are given is outside the model.) *)
Theorem show_overview_lookups_succeed (w : widgets) (df : DataFrame) (st : state) :
  "FollowUp" ∈ columns df ->
  "Diagnosis" ∈ columns df ->
  "Prakriti" ∈ columns df ->
  (selected_date w = None \/ "Date" ∈ columns df) ->
  (forall r, r ∈ rows df ->
     notna (default PNaN (dict_get "Diagnosis" r)) = true /\
     notna (default PNaN (dict_get "Prakriti" r)) = true) ->
  (exists df' n d p dc pc,
     filter_by_date df (selected_date w) = Ok df' /\
     follow_ups df' = Ok n /\
     top df' "Diagnosis" = Ok d /\
     top df' "Prakriti" = Ok p /\
     counts df' "Diagnosis" = Ok dc /\
     counts df' "Prakriti" = Ok pc) /\
  (forall k, fst (show_overview w df st) <> Raise (KeyError k)).
Proof.
  intros Hf Hd Hp Hsel Hcells.
  assert (Hfilter : exists df', filter_by_date df (selected_date w) = Ok df').
  { destruct Hsel as [->|Hdate]; [eauto|].
    destruct (selected_date w); [|eauto].
    rewrite (filter_by_date_some _ _ Hdate). eauto. }
  destruct Hfilter as (df' & Hdf').
  pose proof (filter_by_date_columns _ _ _ Hdf') as Hcols.
  assert (Hcells' : forall r, r ∈ rows df' ->
             notna (default PNaN (dict_get "Diagnosis" r)) = true /\
             notna (default PNaN (dict_get "Prakriti" r)) = true)
    by (intros r Hr; apply Hcells; eapply filter_by_date_rows; eauto).
  rewrite <- Hcols in Hf, Hd, Hp.
  destruct (top_ok df' "Diagnosis" Hd) as (d & Htd); [intros r Hr; now apply Hcells'|].
  destruct (top_ok df' "Prakriti" Hp) as (p & Htp); [intros r Hr; now apply Hcells'|].
  split.
  - exists df'. unfold follow_ups, counts.
    rewrite (getitem_ok _ _ Hf), (getitem_ok _ _ Hd), (getitem_ok _ _ Hp).
    do 5 eexists. repeat split; eauto.
  - intros k. unfold show_overview.
    destruct (empty df); [discriminate|].
    unfold bind, lift, emit, follow_ups, counts.
    rewrite Hdf', (getitem_ok _ _ Hf), Htd, Htp, (getitem_ok _ _ Hd), (getitem_ok _ _ Hp).
    discriminate.
Qed.

Lemma show_overview_lookups_succeed_witness :
  ("FollowUp" ∈ columns (from_records (Sheet.get_all_records Sample.three_visits))) /\
  ("Diagnosis" ∈ columns (from_records (Sheet.get_all_records Sample.three_visits))) /\
  ("Prakriti" ∈ columns (from_records (Sheet.get_all_records Sample.three_visits))) /\
  (selected_date Sample.idle = None \/
   "Date" ∈ columns (from_records (Sheet.get_all_records Sample.three_visits))) /\
  (forall r, r ∈ rows (from_records (Sheet.get_all_records Sample.three_visits)) ->
     notna (default PNaN (dict_get "Diagnosis" r)) = true /\
     notna (default PNaN (dict_get "Prakriti" r)) = true) /\
  (forall k,
     fst (show_overview Sample.idle (from_records (Sheet.get_all_records Sample.three_visits))
            (start Sample.three_visits "overview"))
     <> Raise (KeyError k)).
Proof.
  assert (H1 : "FollowUp" ∈ columns (from_records (Sheet.get_all_records Sample.three_visits)))
    by compute_done.
  assert (H2 : "Diagnosis" ∈ columns (from_records (Sheet.get_all_records Sample.three_visits)))
    by compute_done.
  assert (H3 : "Prakriti" ∈ columns (from_records (Sheet.get_all_records Sample.three_visits)))
    by compute_done.
  assert (H5 : forall r,
             r ∈ rows (from_records (Sheet.get_all_records Sample.three_visits)) ->
             notna (default PNaN (dict_get "Diagnosis" r)) = true /\
             notna (default PNaN (dict_get "Prakriti" r)) = true).
  { intros r Hr. apply list_elem_of_In in Hr. vm_compute in Hr.
    destruct Hr as [<-|[<-|[<-|[]]]]; split; reflexivity. }
  split; [exact H1|]. split; [exact H2|]. split; [exact H3|].
  split; [left; reflexivity|]. split; [exact H5|].
  exact (proj2 (show_overview_lookups_succeed Sample.idle
                  (from_records (Sheet.get_all_records Sample.three_visits))
                  (start Sample.three_visits "overview") H1 H2 H3 (or_introl eq_refl) H5)).
Defined.

Lemma present_tl (l : list pyval) :
  (forall v, v ∈ l -> v <> PNaN) -> forall v, v ∈ tl l -> v <> PNaN.
Proof. destruct l as [|x l]; intros H v Hv; apply H; [exact Hv | now right]. Qed.

Lemma present_hd (l : list pyval) :
  (forall v, v ∈ l -> v <> PNaN) -> notna (hd (PStr "") l) = true.
Proof.
  destruct l as [|x l]; intros H; [reflexivity|].
  simpl. specialize (H x ltac:(left)). destruct x; simpl; congruence.
Qed.

Lemma record_cells_present row :
  (forall v, v ∈ row -> v <> PNaN) ->
  notna (default PNaN (dict_get "Diagnosis" (Sheet.record_of Sheet.schema row))) = true /\
  notna (default PNaN (dict_get "Prakriti" (Sheet.record_of Sheet.schema row))) = true.
Proof.
  intros H. split.
  - change (notna (hd (PStr "") (tl (tl (tl (tl (tl (tl row))))))) = true).
    apply present_hd. now do 6 apply present_tl.
  - change (notna (hd (PStr "") (tl (tl (tl (tl row))))) = true).
    apply present_hd. now do 4 apply present_tl.
Qed.

(** X10.  On a store with the schema's header, at least one data row and
    no missing cell, an overview without date filter binds [opd_json] to all
    the records of the store, reads the sheet and first draws the total, equal
    to the number of data rows; and none of its lookups raises [KeyError].
    (What the widgets do with the values they are given is outside the
    model.) *)
Theorem overview_unfiltered_total (w : widgets) (st : state) :
  Sheet.header (sheet st) = Sheet.schema ->
  Sheet.data (sheet st) <> [] ->
  selected_date w = None ->
  (forall row v, row ∈ Sheet.data (sheet st) -> v ∈ row -> v <> PNaN) ->
  opd_json (snd (overview w st)) = Some (Sheet.get_all_records (sheet st)) /\
  (exists rest,
     trace (snd (overview w st))
     = trace st ++
         SheetRead
         :: StMetric "Total Patients" (PInt (Z.of_nat (length (Sheet.data (sheet st)))))
         :: rest) /\
  (forall k, fst (overview w st) <> Raise (KeyError k)).
Proof.
  intros Hh Hne Hsel Hcells.
  rewrite overview_unfold.
  rewrite from_records_sheet by (rewrite Hh; apply schema_nodup).
  destruct (Sheet.data (sheet st)) as [|row0 data] eqn:E; [congruence|].
  rewrite Hh. unfold to_dict. cbn [rows].
  set (df := mkframe Sheet.schema (Sheet.get_all_records (sheet st))).
  assert (Hrows : forall r, r ∈ rows df ->
             notna (default PNaN (dict_get "Diagnosis" r)) = true /\
             notna (default PNaN (dict_get "Prakriti" r)) = true).
  { intros r Hr. subst df. cbn [rows] in Hr. unfold Sheet.get_all_records in Hr.
    rewrite Hh in Hr. apply list_elem_of_fmap in Hr as (row & -> & Hrow).
    apply record_cells_present. intros v Hv. rewrite E in Hrow. eauto. }
  assert (Hf : "FollowUp" ∈ columns df) by compute_done.
  assert (Hd : "Diagnosis" ∈ columns df) by compute_done.
  assert (Hp : "Prakriti" ∈ columns df) by compute_done.
  destruct (top_ok df "Diagnosis" Hd) as (d & Htd); [intros r Hr; now apply Hrows|].
  destruct (top_ok df "Prakriti" Hp) as (p & Htp); [intros r Hr; now apply Hrows|].
  assert (He : empty df = false).
  { subst df. unfold Sheet.get_all_records. rewrite E. reflexivity. }
  assert (Hlen : len df = Z.of_nat (length (row0 :: data))).
  { subst df. unfold len, Sheet.get_all_records. cbn [rows]. now rewrite E, length_map. }
  unfold show_overview. rewrite He.
  unfold bind, lift, emit, follow_ups, counts, filter_by_date.
  rewrite Hsel, (getitem_ok _ _ Hf), Htd, Htp, (getitem_ok _ _ Hd), (getitem_ok _ _ Hp).
  cbn [fst snd sheet current_view opd_json trace]. rewrite Hlen.
  split; [reflexivity|]. split; [|discriminate].
  eexists. rewrite <- !app_assoc. reflexivity.
Qed.

Lemma overview_unfiltered_total_witness :
  Sheet.header (sheet (start Sample.three_visits "overview")) = Sheet.schema /\
  Sheet.data (sheet (start Sample.three_visits "overview")) <> [] /\
  selected_date Sample.idle = None /\
  (forall row v, row ∈ Sheet.data (sheet (start Sample.three_visits "overview")) ->
                 v ∈ row -> v <> PNaN) /\
  opd_json (snd (overview Sample.idle (start Sample.three_visits "overview")))
  = Some (Sheet.get_all_records Sample.three_visits).
Proof.
  assert (H : forall row v,
             row ∈ Sheet.data (sheet (start Sample.three_visits "overview")) ->
             v ∈ row -> v <> PNaN).
  { intros row v Hrow Hv. apply list_elem_of_In in Hrow. apply list_elem_of_In in Hv.
    simpl in Hrow. destruct Hrow as [<-|[<-|[<-|[]]]]; simpl in Hv;
      repeat (destruct Hv as [<-|Hv]; [discriminate|]); destruct Hv. }
  split; [reflexivity|]. split; [discriminate|]. split; [reflexivity|]. split; [exact H|].
  exact (proj1 (overview_unfiltered_total Sample.idle (start Sample.three_visits "overview")
                  eq_refl ltac:(discriminate) eq_refl H)).
Defined.

(** ** The stored date *)

Lemma digit_inj a b : digit a = digit b -> a mod 10 = b mod 10.
Proof.
  unfold digit. intros H.
  apply (f_equal N_of_ascii) in H.
  pose proof (Z.mod_pos_bound a 10 ltac:(lia)) as Ha.
  pose proof (Z.mod_pos_bound b 10 ltac:(lia)) as Hb.
  rewrite !N_ascii_embedding in H by lia.
  lia.
Qed.

Lemma last_digit_step a b :
  a mod 10 = b mod 10 -> a / 10 = b / 10 -> a = b.
Proof.
  intros Hm Hd.
  rewrite (Z.div_mod a 10), (Z.div_mod b 10) by lia. now rewrite Hm, Hd.
Qed.

Lemma digits2_inj a b :
  0 <= a < 100 -> 0 <= b < 100 -> digits2 a = digits2 b -> a = b.
Proof.
  intros Ha Hb H. unfold digits2 in H.
  assert (H1 : digit (a / 10) = digit (b / 10)) by congruence.
  assert (H2 : digit a = digit b) by congruence.
  apply digit_inj in H1, H2.
  apply last_digit_step; [exact H2|].
  rewrite !Z.mod_small in H1; [exact H1 | |];
    (split; [apply Z.div_pos; lia | apply Z.div_lt_upper_bound; lia]).
Qed.

Lemma digits4_inj a b :
  0 <= a < 10000 -> 0 <= b < 10000 -> digits4 a = digits4 b -> a = b.
Proof.
  intros Ha Hb H. unfold digits4, digits2 in H.
  assert (H1 : digit (a / 1000) = digit (b / 1000)) by congruence.
  assert (H2 : digit (a / 100) = digit (b / 100)) by congruence.
  assert (H3 : digit (a / 10) = digit (b / 10)) by congruence.
  assert (H4 : digit a = digit b) by congruence.
  apply digit_inj in H1, H2, H3, H4.
  apply last_digit_step; [exact H4|].
  apply last_digit_step; [exact H3|]. rewrite !Z.div_div by lia.
  apply last_digit_step; [exact H2|]. rewrite !Z.div_div by lia.
  rewrite !Z.mod_small in H1; [exact H1 | |];
    (split; [apply Z.div_pos; lia | apply Z.div_lt_upper_bound; lia]).
Qed.

(** X11.  The string stored for a date determines the date: two dates that
    [datetime.date] can hold and that are written to the sheet as the same
    text are the same date. *)
Theorem str_date_injective (d1 d2 : date) :
  valid_date d1 -> valid_date d2 -> str_date d1 = str_date d2 -> d1 = d2.
Proof.
  intros (Hy1 & Hm1 & Hd1) (Hy2 & Hm2 & Hd2) H.
  destruct d1 as [y1 m1 a1], d2 as [y2 m2 a2]. simpl in *.
  unfold str_date in H. simpl year in H. simpl month in H. simpl day in H.
  assert (Hy : digits4 y1 = digits4 y2)
    by (unfold digits4, digits2 in *; cbv [String.append] in H; congruence).
  assert (Hm : digits2 m1 = digits2 m2)
    by (unfold digits4, digits2 in *; cbv [String.append] in H; congruence).
  assert (Hd : digits2 a1 = digits2 a2)
    by (unfold digits4, digits2 in *; cbv [String.append] in H; congruence).
  apply digits4_inj in Hy; [|lia|lia].
  apply digits2_inj in Hm; [|lia|lia].
  apply digits2_inj in Hd; [|lia|lia].
  congruence.
Qed.

Lemma str_date_injective_witness :
  valid_date (mkdate 2024 1 2) /\ valid_date (mkdate 2024 1 2) /\
  str_date (mkdate 2024 1 2) = str_date (mkdate 2024 1 2) /\
  mkdate 2024 1 2 = mkdate 2024 1 2.
Proof.
  assert (Hv : valid_date (mkdate 2024 1 2)) by (unfold valid_date; simpl; lia).
  split; [exact Hv|]. split; [exact Hv|]. split; [reflexivity|].
  exact (str_date_injective (mkdate 2024 1 2) (mkdate 2024 1 2) Hv Hv eq_refl).
Defined.

Example str_date_differs :
  str_date (mkdate 2024 1 12) <> str_date (mkdate 2024 11 2).
Proof. discriminate. Qed.

(** ** What reaches the inference service *)

Lemma sidebar_run w ws view :
  sidebar w (start ws view) = (Ok tt, start ws (displayed_view view w)).
Proof.
  unfold displayed_view. run.
  destruct (btn_overview w), (btn_add_entry w); reflexivity.
Qed.

(** X12.  The requests of a run.  A run sends no request unless Generate
    Response is pressed with an instruction that is not blank while the
    overview is displayed; and a run sends at most one request, whose user
    message is the prompt built from the instruction and from all the records
    of the store, whatever the date filter shows. *)
Theorem script_requests
    (svc : request -> list string) (ws : Sheet.worksheet) (view : string)
    (w : widgets) :
  if btn_generate w && negb (all_space (user_prompt w))
     && negb (String.eqb (displayed_view view w) "entry")
  then
    chat_calls (trace (snd (script svc w (start ws view)))) = [] \/
    chat_calls (trace (snd (script svc w (start ws view))))
    = [chat_request
         (build_opd_prompt (to_dict (from_records (Sheet.get_all_records ws)))
            (user_prompt w))]
  else chat_calls (trace (snd (script svc w (start ws view)))) = [].
Proof.
  unfold script, bind. rewrite before_generate_unfold, sidebar_run. cbn [snd].
  change (current_view (start ws (displayed_view view w))) with (displayed_view view w).
  set (s1 := start ws (displayed_view view w)).
  destruct (String.eqb (displayed_view view w) "entry").
  - rewrite andb_false_r.
    destruct (add_entry_facts w s1) as (Hok & Hj & Hq & _).
    destruct (add_entry w s1) as [r2 st2]. cbn [fst snd] in *. subst r2.
    rewrite build_prompt_stmt_unbound by exact Hj. exact Hq.
  - rewrite andb_true_r.
    destruct (overview_facts w s1) as (Hj & _ & _ & Hq & _).
    destruct (overview w s1) as [[[]|e] st2]; cbn [fst snd] in *.
    + rewrite (build_prompt_stmt_bound _ _ _ Hj). unfold when.
      destruct (btn_generate w); cbn [andb]; [|exact Hq].
      rewrite generate_run.
      destruct (all_space (user_prompt w)); cbn [negb snd trace].
      * now rewrite chat_calls_snoc, Hq.
      * right. destruct (svc (chat_request _)); cbn [snd trace].
        -- now rewrite chat_calls_snoc, Hq.
        -- match goal with
           | |- context [trace st2 ++ [?a; ?b]] =>
               change (trace st2 ++ [a; b]) with (trace st2 ++ [a] ++ [b])
           end.
           now rewrite app_assoc, !chat_calls_snoc, Hq.
    + destruct (btn_generate w && negb (all_space (user_prompt w))); [left|]; exact Hq.
Qed.

Example request_ignores_date_filter :
  chat_calls (trace (snd (script Sample.two_choices
                            (mkwidgets false false (mkdate 2024 1 1) "" 0 "Male" "Vata" ""
                               "" "Yes" false false (Some (mkdate 2024 1 2)) "Summarize" true)
                            (start Sample.three_visits "overview"))))
  = [chat_request (build_opd_prompt (Sheet.get_all_records Sample.three_visits) "Summarize")].
Proof. vm_compute. reflexivity. Qed.
